(** * buzzline-04: the message-length histogram consumer

    A shallow embedding of [consumers/project_consumer_Sean.py] and the
    properties of its specification.

    The program keeps two module-level objects, the list [message_lengths]
    and the dict [length_counts], mutates them in place from
    [process_message], and talks to the outside world through the logger,
    the plotting library, the Kafka client and one data file.  The embedding
    threads a [state] record through a small state-and-exception monad:
    a Python exception leaves every mutation done before it in place, so a
    computation returns the state together with either a value or the
    exception raised. *)

From Stdlib Require Import ZArith List String Bool Lia.
From Stdlib Require Import Permutation Sorted.
From Stdlib Require Import Floats.SpecFloat.
Import ListNotations.

Set Warnings "-register-all".

Open Scope string_scope.
Open Scope Z_scope.
Open Scope list_scope.

(** ** Values

    What [json.loads] can return: [None], a [bool], an [int] (unbounded), a
    [float] (an IEEE 754 binary64 value in the canonical mantissa and
    exponent of [spec_float], no NaN payload), a [str], a [list] or a
    [dict].  The items of a [dict] are kept in insertion order;
    [json.loads] leaves one item per key. *)

Inductive json : Type :=
| JNull
| JBool (b : bool)
| JInt (z : Z)
| JFloat (f : spec_float)
| JStr (s : string)
| JArr (elems : list json)
| JObj (items : list (string * json)).

(** The exceptions the program can meet.  All of them derive from
    [Exception], which is what both consumption loops catch. *)

Inductive exn : Type :=
| AttributeError      (* [.get] on a value that is not a dict *)
| TypeError           (* unhashable dict key, unorderable keys in [sorted] *)
| KeyError            (* [d[k]] on a missing key *)
| NameError           (* [KafkaConsumer] unbound when the import failed *)
| JSONDecodeError     (* [json.loads] on a malformed record *)
| NoBrokersAvailable  (* the Kafka client cannot connect *)
| OSError.            (* the data file cannot be opened or read *)

(** ** Observable effects

    Calls into the logger, the plotting library and [time.sleep] are recorded
    in order.  The plotting calls themselves are external; they are taken to
    return normally. *)

Inductive level : Type := INFO | WARNING | ERROR.

Inductive log_msg : Type :=
| MsgStartConsumer
| MsgKafkaConnected (kafka_server topic : string)
| MsgReceivedFromKafka (value : json)
| MsgKafkaConsumerError (e : exn)
| MsgDataFileNotFound
| MsgReadingMessagesFrom
| MsgReadFromFile (message : json)
| MsgErrorReadingFromFile (e : exn)
| MsgProcessingMessage (message : json)
| MsgKafkaNotAvailable.

Inductive effect : Type :=
| Log (lv : level) (m : log_msg)
| AxClear
| AxBar (sorted_lengths : list json) (counts : list Z) (ncolors : nat)
| AxSetXlabel (s : string)
| AxSetYlabel (s : string)
| AxSetTitle (s : string)
| AxSetXticks (sorted_lengths : list json)
| PltIon
| PltSubplots
| PltDraw
| PltPause         (* plt.pause(0.1) *)
| TimeSleep (secs : Z)
| PltIoff
| PltShow.

(** ** Program state *)

Record state : Type := mkState {
  message_lengths : list json;
  length_counts : list (json * Z);   (* the dict, items in insertion order *)
  effects : list effect
}.

(** The state after the module body has run: interactive mode on, one
    figure, both containers empty. *)
Definition init_state : state :=
  {| message_lengths := [];
     length_counts := [];
     effects := [PltIon; PltSubplots] |}.

(** ** The state-and-exception monad *)

Inductive outcome (A : Type) : Type :=
| Return (a : A)
| Raise (e : exn).
Arguments Return {A} a.
Arguments Raise {A} e.

Definition M (A : Type) : Type := state -> outcome A * state.

Definition ret {A} (a : A) : M A := fun s => (Return a, s).

Definition raise {A} (e : exn) : M A := fun s => (Raise e, s).

Definition bind {A B} (c : M A) (k : A -> M B) : M B :=
  fun s =>
    match c s with
    | (Return a, s') => k a s'
    | (Raise e, s') => (Raise e, s')
    end.

Notation "x <- c ;; k" := (bind c (fun x => k))
  (at level 61, c at next level, right associativity).
Notation "c ;; k" := (bind c (fun _ => k))
  (at level 61, right associativity).

(** [try: body except Exception as e: handler e] *)
Definition try_except {A} (body : M A) (handler : exn -> M A) : M A :=
  fun s =>
    match body s with
    | (Return a, s') => (Return a, s')
    | (Raise e, s') => handler e s'
    end.

(** [for x in xs: body x]; an exception leaves the loop. *)
Fixpoint for_each {A} (body : A -> M unit) (xs : list A) : M unit :=
  match xs with
  | [] => ret tt
  | x :: xs' => body x ;; for_each body xs'
  end.

Definition get_state : M state := fun s => (Return s, s).

Definition emit (e : effect) : M unit :=
  fun s => (Return tt,
            {| message_lengths := message_lengths s;
               length_counts := length_counts s;
               effects := effects s ++ [e] |}).

Definition logger_info (m : log_msg) : M unit := emit (Log INFO m).
Definition logger_warning (m : log_msg) : M unit := emit (Log WARNING m).
Definition logger_error (m : log_msg) : M unit := emit (Log ERROR m).

(** ** Python's dict, as far as the program uses it *)

(** Only [None], numbers and strings hash; a [list] or a [dict] does not. *)
Definition hashable (v : json) : bool :=
  match v with
  | JArr _ | JObj _ => false
  | _ => true
  end.

(** The exact comparison of an [int] with a [float]: a finite float is
    [(-1)^s * m * 2^e]. *)
Definition signed_mantissa (s : bool) (m : positive) : Z :=
  if s then Z.neg m else Z.pos m.

Definition int_float_compare (z : Z) (f : spec_float) : option comparison :=
  match f with
  | S754_nan => None
  | S754_infinity s => Some (if s then Gt else Lt)
  | S754_zero _ => Some (z ?= 0)
  | S754_finite s m e =>
      if 0 <=? e
      then Some (z ?= signed_mantissa s m * 2 ^ e)
      else Some (z * 2 ^ (- e) ?= signed_mantissa s m)
  end.

(** Numbers: a [bool] is the [int] 0 or 1. *)
Inductive number : Type :=
| NInt (z : Z)
| NFloat (f : spec_float).

Definition as_number (v : json) : option number :=
  match v with
  | JBool b => Some (NInt (if b then 1 else 0))
  | JInt z => Some (NInt z)
  | JFloat f => Some (NFloat f)
  | _ => None
  end.

Definition number_compare (a b : number) : option comparison :=
  match a, b with
  | NInt x, NInt y => Some (x ?= y)
  | NInt x, NFloat g => int_float_compare x g
  | NFloat f, NInt y => option_map CompOpp (int_float_compare y f)
  | NFloat f, NFloat g => SFcompare f g
  end.

(** [a == b] on the values that can be dict keys. *)
Definition py_eq (a b : json) : bool :=
  match a, b with
  | JNull, JNull => true
  | JStr s, JStr t => String.eqb s t
  | _, _ =>
      match as_number a, as_number b with
      | Some x, Some y =>
          match number_compare x y with
          | Some Eq => true
          | _ => false
          end
      | _, _ => false
      end
  end.

(** A dict finds a key by [k is key or k == key].  Every NaN that
    [json.loads] returns is the one NaN object of the [json] module, so a
    NaN key is found again through the identity test. *)
Definition key_match (k key : json) : bool :=
  match k, key with
  | JFloat S754_nan, JFloat S754_nan => true
  | _, _ => py_eq k key
  end.

(** [d.get(k)] on the items, [None] when no key matches. *)
Fixpoint dict_lookup (k : json) (d : list (json * Z)) : option Z :=
  match d with
  | [] => None
  | (key, v) :: d' => if key_match k key then Some v else dict_lookup k d'
  end.

(** [d[k] = v]: an existing item keeps its key object and its place, a new
    item goes last. *)
Fixpoint dict_set (k : json) (v : Z) (d : list (json * Z)) : list (json * Z) :=
  match d with
  | [] => [(k, v)]
  | (key, w) :: d' =>
      if key_match k key then (key, v) :: d' else (key, w) :: dict_set k v d'
  end.

(** [k in length_counts] *)
Definition length_counts_contains (k : json) : M bool :=
  fun s =>
    if hashable k
    then (Return (match dict_lookup k (length_counts s) with
                  | Some _ => true
                  | None => false
                  end), s)
    else (Raise TypeError, s).

(** [length_counts[k]] *)
Definition length_counts_getitem (k : json) : M Z :=
  fun s =>
    if hashable k
    then match dict_lookup k (length_counts s) with
         | Some v => (Return v, s)
         | None => (Raise KeyError, s)
         end
    else (Raise TypeError, s).

(** [length_counts[k] = v] *)
Definition length_counts_setitem (k : json) (v : Z) : M unit :=
  fun s =>
    if hashable k
    then (Return tt,
          {| message_lengths := message_lengths s;
             length_counts := dict_set k v (length_counts s);
             effects := effects s |})
    else (Raise TypeError, s).

(** [message.get(key, default)] on a parsed message: the first item with
    that key, the default when there is none.  A value that is not a dict has
    no [get]. *)
Fixpoint items_get (key : string) (default : json) (items : list (string * json)) : json :=
  match items with
  | [] => default
  | (k, v) :: items' => if String.eqb k key then v else items_get key default items'
  end.

Definition message_get (message : json) (key : string) (default : json) : M json :=
  match message with
  | JObj items => ret (items_get key default items)
  | _ => raise AttributeError
  end.

(** [message_lengths.append(v)] *)
Definition message_lengths_append (v : json) : M unit :=
  fun s => (Return tt,
            {| message_lengths := message_lengths s ++ [v];
               length_counts := length_counts s;
               effects := effects s |}).

(** ** [sorted]

    [a < b]: numbers compare with numbers ([False] and [True] as 0 and 1, a
    NaN is below nothing), strings with strings; anything else raises
    [TypeError]. *)
Definition py_lt (a b : json) : outcome bool :=
  match a, b with
  | JStr s, JStr t => Return (String.ltb s t)
  | _, _ =>
      match as_number a, as_number b with
      | Some x, Some y =>
          Return (match number_compare x y with
                  | Some Lt => true
                  | _ => false
                  end)
      | _, _ => Raise TypeError
      end
  end.

(** [sorted] is a stable sort by [<].  It is written here as a left-to-right
    insertion: each new element goes before the first element it is below.
    On keys that [<] orders totally this is the one sorted arrangement; the
    place CPython's merge sort gives a NaN is not modelled.  Whatever the
    algorithm, a list of two or more elements that mixes numbers, strings and
    [None] raises [TypeError]. *)
Fixpoint insert_sorted (x : json) (l : list json) : outcome (list json) :=
  match l with
  | [] => Return [x]
  | y :: l' =>
      match py_lt x y with
      | Raise e => Raise e
      | Return true => Return (x :: y :: l')
      | Return false =>
          match insert_sorted x l' with
          | Raise e => Raise e
          | Return r => Return (y :: r)
          end
      end
  end.

Fixpoint sorted_from (acc : list json) (l : list json) : outcome (list json) :=
  match l with
  | [] => Return acc
  | x :: l' =>
      match insert_sorted x acc with
      | Raise e => Raise e
      | Return acc' => sorted_from acc' l'
      end
  end.

Definition sorted (l : list json) : M (list json) :=
  fun s => (sorted_from [] l, s).

(** [[f x for x in xs]] *)
Fixpoint list_comprehension {A B} (f : A -> M B) (xs : list A) : M (list B) :=
  match xs with
  | [] => ret []
  | x :: xs' =>
      y <- f x ;;
      ys <- list_comprehension f xs' ;;
      ret (y :: ys)
  end.

(** ** The program *)

(** The calls into the plotting library are recorded and return.  The
    library itself can refuse a chart (a key too large for a float, a NaN
    or a [None] position); what is proved below about a redraw is therefore
    stated for a call that returns, or is about the containers, which are
    updated before the redraw. *)
Definition update_chart : M unit :=
  emit AxClear ;;
  s <- get_state ;;
  match message_lengths s with
  | [] => ret tt
  | _ :: _ =>
      sorted_lengths <- sorted (map fst (length_counts s)) ;;
      counts <- list_comprehension length_counts_getitem sorted_lengths ;;
      emit (AxBar sorted_lengths counts (List.length sorted_lengths)) ;;
      emit (AxSetXlabel "Message Length") ;;
      emit (AxSetYlabel "Count") ;;
      emit (AxSetTitle "Counts of Messages by Message Length") ;;
      emit (AxSetXticks sorted_lengths) ;;
      emit PltDraw ;;
      emit PltPause
  end.

Definition process_message (message : json) : M unit :=
  logger_info (MsgProcessingMessage message) ;;
  message_length <- message_get message "message_length" (JInt 0) ;;
  message_lengths_append message_length ;;
  present <- length_counts_contains message_length ;;
  (if present : bool
   then n <- length_counts_getitem message_length ;;
        length_counts_setitem message_length (n + 1)
   else length_counts_setitem message_length 1) ;;
  update_chart.

(** ** The world outside the process *)

(** What iterating the Kafka consumer gives: a record whose payload the
    deserializer turned into a value, or an exception (a payload that does
    not decode, a lost connection).  The list is the part of the stream the
    process sees before the iterator stops.  The consumer is built without a
    timeout, so a healthy iterator never stops by itself: the end of the list
    is where the description of the run ends, and what is proved about a
    healthy stream is about the state reached after its records. *)
Inductive kafka_item : Type :=
| KafkaRecord (value : json)
| KafkaRaises (e : exn).

(** What [KafkaConsumer(topic, bootstrap_servers=...)] does. *)
Inductive kafka_connection : Type :=
| ConnectFails (e : exn)
| Connected (stream : list kafka_item).

(** A line of the data file, by what [json.loads(line.strip())] makes of it. *)
Inductive file_line : Type :=
| LineJson (message : json)
| LineMalformed.

Inductive data_file : Type :=
| FileAbsent                         (* [DATA_FILE.exists()] is false *)
| FileUnreadable                     (* exists, [open] raises *)
| FileLines (lines : list file_line).

Record env : Type := mkEnv {
  KAFKA_AVAILABLE : bool;              (* did [from kafka import ...] work *)
  PROJECT_TOPIC : option string;       (* os.getenv *)
  KAFKA_SERVER : option string;
  kafka_broker : string -> string -> kafka_connection;  (* topic, server *)
  DATA_FILE : data_file
}.

Definition get_kafka_topic (w : env) : string :=
  match PROJECT_TOPIC w with
  | Some t => t
  | None => "buzzline-topic"
  end.

Definition get_kafka_server (w : env) : string :=
  match KAFKA_SERVER w with
  | Some a => a
  | None => "localhost:9092"
  end.

Definition KafkaConsumer (w : env) (topic kafka_server : string) : M (list kafka_item) :=
  if KAFKA_AVAILABLE w
  then match kafka_broker w topic kafka_server with
       | ConnectFails e => raise e
       | Connected stream => ret stream
       end
  else raise NameError.

Definition kafka_next (item : kafka_item) : M json :=
  match item with
  | KafkaRecord value => ret value
  | KafkaRaises e => raise e
  end.

(** The body of the loop over the consumer. *)
Definition receive (item : kafka_item) : M unit :=
  value <- kafka_next item ;;
  logger_info (MsgReceivedFromKafka value) ;;
  process_message value.

Definition consume_from_kafka (w : env) : M unit :=
  let topic := get_kafka_topic w in
  let kafka_server := get_kafka_server w in
  try_except
    (consumer <- KafkaConsumer w topic kafka_server ;;
     logger_info (MsgKafkaConnected kafka_server topic) ;;
     for_each receive consumer)
    (fun e => logger_error (MsgKafkaConsumerError e)).

Definition json_loads (line : file_line) : M json :=
  match line with
  | LineJson message => ret message
  | LineMalformed => raise JSONDecodeError
  end.

Definition open_data_file (f : data_file) : M (list file_line) :=
  match f with
  | FileLines lines => ret lines
  | _ => raise OSError
  end.

(** The body of the loop over the lines of the file. *)
Definition read_line (line : file_line) : M unit :=
  message <- json_loads line ;;
  logger_info (MsgReadFromFile message) ;;
  process_message message ;;
  emit (TimeSleep 1).

Definition consume_from_file (w : env) : M unit :=
  match DATA_FILE w with
  | FileAbsent => logger_error MsgDataFileNotFound
  | f =>
      logger_info MsgReadingMessagesFrom ;;
      try_except
        (lines <- open_data_file f ;;
         for_each read_line lines)
        (fun e => logger_error (MsgErrorReadingFromFile e))
  end.

Definition main (w : env) : M unit :=
  logger_info MsgStartConsumer ;;
  (if KAFKA_AVAILABLE w
   then consume_from_kafka w
   else logger_warning MsgKafkaNotAvailable ;;
        consume_from_file w) ;;
  emit PltIoff ;;
  emit PltShow.

(** ** Reading the state *)

(** The sum of the dict's values. *)
Fixpoint sum_counts (d : list (json * Z)) : Z :=
  match d with
  | [] => 0
  | (_, n) :: d' => n + sum_counts d'
  end.

(** The count of a bucket, 0 for a key the dict does not have. *)
Definition bucket (k : json) (s : state) : Z :=
  match dict_lookup k (length_counts s) with
  | Some n => n
  | None => 0
  end.

(** [key in message], and the value found under the key. *)
Fixpoint items_find (key : string) (items : list (string * json)) : option json :=
  match items with
  | [] => None
  | (k, v) :: items' => if String.eqb k key then Some v else items_find key items'
  end.

(** The state [process_message] hands to [update_chart] when the length [v]
    of [message] is hashable. *)
Definition counted (message v : json) (s : state) : state :=
  {| message_lengths := message_lengths s ++ [v];
     length_counts := dict_set v (bucket v s + 1) (length_counts s);
     effects := effects s ++ [Log INFO (MsgProcessingMessage message)] |}.

(** The state [process_message] leaves when the length [v] does not hash. *)
Definition rejected (message v : json) (s : state) : state :=
  {| message_lengths := message_lengths s ++ [v];
     length_counts := length_counts s;
     effects := effects s ++ [Log INFO (MsgProcessingMessage message)] |}.

(** A record as the producer writes it: the text and its length. *)
Definition record_of (text : string) : json :=
  JObj [("message", JStr text);
        ("message_length", JInt (Z.of_nat (String.length text)))].

Definition records_a_bb_bb : list json :=
  [record_of "a"; record_of "bb"; record_of "bb"].

(** Is the value a non-negative [int]? *)
Definition nonneg_int (v : json) : bool :=
  match v with
  | JInt z => 0 <=? z
  | _ => false
  end.

(** The histogram as the data model describes it: every key a non-negative
    integer, every count a positive integer. *)
Definition histogram_as_specified (d : list (json * Z)) : bool :=
  forallb (fun kv => nonneg_int (fst kv) && (0 <? snd kv)) d.

(** A message whose length field is absent or a non-negative integer. *)
Definition length_as_specified (message : json) : bool :=
  match message with
  | JObj items => nonneg_int (items_get "message_length" (JInt 0) items)
  | _ => false
  end.

(** The same world with another data file, or another broker. *)
Definition with_data_file (w : env) (f : data_file) : env :=
  {| KAFKA_AVAILABLE := KAFKA_AVAILABLE w;
     PROJECT_TOPIC := PROJECT_TOPIC w;
     KAFKA_SERVER := KAFKA_SERVER w;
     kafka_broker := kafka_broker w;
     DATA_FILE := f |}.

Definition with_kafka_broker (w : env) (b : string -> string -> kafka_connection) : env :=
  {| KAFKA_AVAILABLE := KAFKA_AVAILABLE w;
     PROJECT_TOPIC := PROJECT_TOPIC w;
     KAFKA_SERVER := KAFKA_SERVER w;
     kafka_broker := b;
     DATA_FILE := DATA_FILE w |}.

(** The state with more effects recorded. *)
Definition and_then (s : state) (es : list effect) : state :=
  {| message_lengths := message_lengths s;
     length_counts := length_counts s;
     effects := effects s ++ es |}.

(** A world where the client library is installed and no broker answers,
    with the three records in the data file. *)
Definition no_broker_world : env :=
  {| KAFKA_AVAILABLE := true;
     PROJECT_TOPIC := None;
     KAFKA_SERVER := None;
     kafka_broker := fun _ _ => ConnectFails NoBrokersAvailable;
     DATA_FILE := FileLines (map LineJson records_a_bb_bb) |}.

(** A world without the client library, reading the file [f]. *)
Definition file_world (f : data_file) : env :=
  {| KAFKA_AVAILABLE := false;
     PROJECT_TOPIC := None;
     KAFKA_SERVER := None;
     kafka_broker := fun _ _ => ConnectFails NoBrokersAvailable;
     DATA_FILE := f |}.

(** A data file whose second line is not JSON. *)
Definition lines_with_bad_second : list file_line :=
  [LineJson (record_of "a"); LineMalformed; LineJson (record_of "bb")].

(** A computation that leaves both containers as they are. *)
Definition keeps_data {A} (c : M A) : Prop :=
  forall s o s', c s = (o, s') ->
    message_lengths s' = message_lengths s /\ length_counts s' = length_counts s.

(** A dict whose keys all have the property [Q] and whose counts are all
    positive. *)
Definition shaped (Q : json -> Prop) (d : list (json * Z)) : Prop :=
  Forall (fun kv => Q (fst kv) /\ 0 < snd kv) d.

(** How [<] sees a value: numbers order among themselves, strings among
    themselves, and nothing else orders at all. *)
Inductive key_class : Type := Numeric | Text | Unordered.

Definition class_of (v : json) : key_class :=
  match v with
  | JBool _ | JInt _ | JFloat _ => Numeric
  | JStr _ => Text
  | _ => Unordered
  end.

(** The plotting calls of one redraw, after [ax.clear()]. *)
Definition bar_chart (sorted_lengths : list json) (counts : list Z) : list effect :=
  [AxBar sorted_lengths counts (List.length sorted_lengths);
   AxSetXlabel "Message Length";
   AxSetYlabel "Count";
   AxSetTitle "Counts of Messages by Message Length";
   AxSetXticks sorted_lengths;
   PltDraw;
   PltPause].

(** A state with one sample per count and the integer keys 5, 2, 9, in the
    order they were first seen. *)
Definition state_5_2_9 : state :=
  {| message_lengths := [JInt 5; JInt 2; JInt 5; JInt 9];
     length_counts := [(JInt 5, 2); (JInt 2, 1); (JInt 9, 1)];
     effects := [] |}.

(** A state whose histogram has the one key "abc". *)
Definition state_abc : state :=
  {| message_lengths := [JStr "abc"];
     length_counts := [(JStr "abc", 1)];
     effects := [] |}.

(** The length of a message when it is an integer. *)
Definition int_length (message : json) : option Z :=
  match message with
  | JObj items =>
      match items_get "message_length" (JInt 0) items with
      | JInt z => Some z
      | _ => None
      end
  | _ => None
  end.

(** Is the effect a record logged at level ERROR? *)
Definition is_error (e : effect) : bool :=
  match e with
  | Log ERROR _ => true
  | _ => false
  end.

(** The containers after the integer lengths [zs] have been tallied: they
    are the samples, in order; every key is an integer; the bucket of an
    integer is the number of times it occurs among them. *)
Definition tallied (zs : list Z) (s : state) : Prop :=
  message_lengths s = map JInt zs /\
  (exists ks, map fst (length_counts s) = map JInt ks) /\
  (forall n, bucket (JInt n) s = Z.of_nat (count_occ Z.eq_dec zs n)).

(** The integer length a line of the file, or a record of the stream,
    carries. *)
Definition line_length (line : file_line) : option Z :=
  match line with
  | LineJson message => int_length message
  | LineMalformed => None
  end.

Definition item_length (item : kafka_item) : option Z :=
  match item with
  | KafkaRecord value => int_length value
  | KafkaRaises _ => None
  end.

(** Can [process_message] count the value: is it a dict whose length
    hashes? *)
Definition countable (message : json) : bool :=
  match message with
  | JObj items => hashable (items_get "message_length" (JInt 0) items)
  | _ => false
  end.

(** A data file whose second line is valid JSON but a list, not a dict. *)
Definition lines_with_list_second : list file_line :=
  [LineJson (record_of "a"); LineJson (JArr [JInt 1]); LineJson (record_of "bb")].

(** Is the message a dict whose length does not hash? *)
Definition unhashable_length (message : json) : bool :=
  match message with
  | JObj items => negb (hashable (items_get "message_length" (JInt 0) items))
  | _ => false
  end.

(** How far the sample list is ahead of the histogram: the number of
    samples minus the sum of the counts. *)
Definition samples_ahead (s : state) : Z :=
  Z.of_nat (List.length (message_lengths s)) - sum_counts (length_counts s).

(** A state whose histogram has the one key 1, counted twice. *)
Definition state_1_twice : state :=
  {| message_lengths := [JInt 1; JInt 1];
     length_counts := [(JInt 1, 2)];
     effects := [] |}.

(** * Properties *)

(** ** The monad's frame: computations that leave both containers alone *)

Lemma keeps_ret {A} (a : A) : keeps_data (ret a).
Proof. intros s o s' H. inversion H. auto. Qed.

Lemma keeps_raise {A} (e : exn) : keeps_data (@raise A e).
Proof. intros s o s' H. inversion H. auto. Qed.

Lemma keeps_emit (e : effect) : keeps_data (emit e).
Proof. intros s o s' H. inversion H. auto. Qed.

Lemma keeps_get_state : keeps_data get_state.
Proof. intros s o s' H. inversion H. auto. Qed.

Lemma keeps_sorted (l : list json) : keeps_data (sorted l).
Proof. intros s o s' H. inversion H. auto. Qed.

Lemma keeps_getitem (k : json) : keeps_data (length_counts_getitem k).
Proof.
  intros s o s' H. unfold length_counts_getitem in H.
  destruct (hashable k); [destruct (dict_lookup k (length_counts s))|];
    inversion H; auto.
Qed.

Lemma keeps_bind {A B} (c : M A) (k : A -> M B) :
  keeps_data c -> (forall a, keeps_data (k a)) -> keeps_data (bind c k).
Proof.
  intros Hc Hk s o s' H. unfold bind in H.
  destruct (c s) as [[a|e] s1] eqn:E.
  - destruct (Hc _ _ _ E) as [H1 H2]. destruct (Hk a _ _ _ H) as [H3 H4].
    split; congruence.
  - inversion H; subst. exact (Hc _ _ _ E).
Qed.

Lemma keeps_list_comprehension {A B} (f : A -> M B) (xs : list A) :
  (forall x, keeps_data (f x)) -> keeps_data (list_comprehension f xs).
Proof.
  intros Hf. induction xs as [|x xs IH]; simpl.
  - apply keeps_ret.
  - apply keeps_bind; [apply Hf|]. intros y.
    apply keeps_bind; [exact IH|]. intros ys. apply keeps_ret.
Qed.

Create HintDb keeps.

#[local] Hint Resolve keeps_ret keeps_raise keeps_emit keeps_get_state
  keeps_sorted keeps_getitem : keeps.

Lemma keeps_update_chart : keeps_data update_chart.
Proof.
  unfold update_chart.
  apply keeps_bind; [auto with keeps|]. intros _.
  apply keeps_bind; [auto with keeps|]. intros s0.
  destruct (message_lengths s0); [auto with keeps|].
  apply keeps_bind; [auto with keeps|]. intros ks.
  apply keeps_bind; [apply keeps_list_comprehension; auto with keeps|]. intros cs.
  repeat (apply keeps_bind; [auto with keeps|]; intros _).
  auto with keeps.
Qed.

(** ** What [process_message] does to the containers *)

Lemma process_message_hashable (items : list (string * json)) (s : state) :
  let v := items_get "message_length" (JInt 0) items in
  hashable v = true ->
  process_message (JObj items) s = update_chart (counted (JObj items) v s).
Proof.
  intros v Hv.
  unfold process_message, bind, logger_info, emit, message_get, ret,
    message_lengths_append, length_counts_contains, length_counts_getitem,
    length_counts_setitem, counted, bucket.
  cbn [message_lengths length_counts effects]. fold v. rewrite Hv.
  destruct (dict_lookup v (length_counts s)) as [n|] eqn:E;
    cbn [message_lengths length_counts effects]; rewrite ?Hv, ?E; reflexivity.
Qed.

Lemma process_message_unhashable (items : list (string * json)) (s : state) :
  let v := items_get "message_length" (JInt 0) items in
  hashable v = false ->
  process_message (JObj items) s = (Raise TypeError, rejected (JObj items) v s).
Proof.
  intros v Hv.
  unfold process_message, bind, logger_info, emit, message_get, ret,
    message_lengths_append, length_counts_contains, rejected.
  cbn [message_lengths length_counts effects]. fold v. rewrite Hv. reflexivity.
Qed.

Lemma process_message_not_dict (message : json) (s : state) :
  (forall items, message <> JObj items) ->
  process_message message s =
  (Raise AttributeError,
   {| message_lengths := message_lengths s;
      length_counts := length_counts s;
      effects := effects s ++ [Log INFO (MsgProcessingMessage message)] |}).
Proof.
  intros H. destruct message; try reflexivity. exfalso. eapply H. reflexivity.
Qed.

(** After [process_message] on a dict, whatever its outcome: the length is on
    the sample list, and it is counted exactly when it hashes. *)
Lemma process_message_data (items : list (string * json)) (s : state) :
  let v := items_get "message_length" (JInt 0) items in
  let s' := snd (process_message (JObj items) s) in
  message_lengths s' = message_lengths s ++ [v] /\
  length_counts s' =
    if hashable v
    then dict_set v (bucket v s + 1) (length_counts s)
    else length_counts s.
Proof.
  intros v s'. subst s'. destruct (hashable v) eqn:Hv.
  - rewrite (process_message_hashable items s Hv). fold v.
    destruct (update_chart (counted (JObj items) v s)) as [o s1] eqn:E.
    destruct (keeps_update_chart _ _ _ E) as [H1 H2]. simpl.
    rewrite H1, H2. split; reflexivity.
  - rewrite (process_message_unhashable items s Hv). split; reflexivity.
Qed.

(** A call that returns has counted its message. *)
Lemma process_message_returns (message : json) (s s' : state) :
  process_message message s = (Return tt, s') ->
  exists items,
    message = JObj items /\
    hashable (items_get "message_length" (JInt 0) items) = true.
Proof.
  intros H. destruct message as [| | | | | |items];
    try (rewrite process_message_not_dict in H by discriminate; discriminate).
  exists items. split; [reflexivity|].
  destruct (hashable (items_get "message_length" (JInt 0) items)) eqn:Hv;
    [reflexivity|].
  rewrite (process_message_unhashable items s Hv) in H. discriminate.
Qed.

(** ** The dict *)

Lemma SFcompare_refl (f : spec_float) : f <> S754_nan -> SFcompare f f = Some Eq.
Proof.
  intros Hf. destruct f as [[|]|[|]| |[|] m e]; try reflexivity; try congruence;
    simpl; rewrite Z.compare_refl, Pos.compare_cont_refl; reflexivity.
Qed.

Lemma key_match_refl (k : json) : hashable k = true -> key_match k k = true.
Proof.
  destruct k as [|b|z|f|t| |]; simpl; try discriminate; intros _.
  - reflexivity.
  - destruct b; reflexivity.
  - rewrite Z.compare_refl. reflexivity.
  - destruct f as [[|]|[|]| |[|] m e]; try reflexivity;
      simpl; rewrite Z.compare_refl, Pos.compare_cont_refl; reflexivity.
  - apply String.eqb_refl.
Qed.

Lemma dict_lookup_set_same (k : json) (v : Z) (d : list (json * Z)) :
  hashable k = true -> dict_lookup k (dict_set k v d) = Some v.
Proof.
  intros Hk. induction d as [|[key w] d IH]; simpl.
  - rewrite (key_match_refl k Hk). reflexivity.
  - destruct (key_match k key) eqn:E; simpl; rewrite E; [reflexivity|exact IH].
Qed.

Lemma dict_set_fresh (k : json) (v : Z) (d : list (json * Z)) :
  dict_lookup k d = None -> dict_set k v d = d ++ [(k, v)].
Proof.
  induction d as [|[key w] d IH]; simpl; intros H; [reflexivity|].
  destruct (key_match k key); [discriminate|]. rewrite (IH H). reflexivity.
Qed.

Lemma sum_counts_dict_set (k : json) (v : Z) (d : list (json * Z)) :
  sum_counts (dict_set k v d) =
  sum_counts d + v - match dict_lookup k d with Some n => n | None => 0 end.
Proof.
  induction d as [|[key w] d IH]; simpl; [lia|].
  destruct (key_match k key); simpl; [lia|]. rewrite IH. lia.
Qed.

Lemma Forall_dict_set (P : json * Z -> Prop) (k : json) (v : Z) (d : list (json * Z)) :
  Forall P d ->
  (forall key w, In (key, w) d -> key_match k key = true -> P (key, v)) ->
  P (k, v) ->
  Forall P (dict_set k v d).
Proof.
  intros Hd Hupd Hnew. induction d as [|[key w] d IH]; simpl.
  - constructor; [exact Hnew|constructor].
  - inversion Hd as [|x l Hx Hl]; subst.
    destruct (key_match k key) eqn:E.
    + constructor; [|exact Hl]. apply (Hupd key w); [left; reflexivity|exact E].
    + constructor; [exact Hx|]. apply IH; [exact Hl|].
      intros key' w' Hin. apply (Hupd key' w'). right. exact Hin.
Qed.

(** ** Loops *)

Lemma for_each_app {A} (body : A -> M unit) (xs ys : list A) (s s' : state) :
  for_each body (xs ++ ys) s = (Return tt, s') ->
  exists s1, for_each body xs s = (Return tt, s1) /\
             for_each body ys s1 = (Return tt, s').
Proof.
  revert s. induction xs as [|x xs IH]; simpl; intros s H.
  - exists s. split; [reflexivity|exact H].
  - unfold bind in *. destruct (body x s) as [[[]|e] s0]; [|discriminate].
    exact (IH s0 H).
Qed.

(** A call of [process_message] that returns adds one to the sum of counts. *)
Lemma process_message_sum (message : json) (s s' : state) :
  process_message message s = (Return tt, s') ->
  sum_counts (length_counts s') = sum_counts (length_counts s) + 1.
Proof.
  intros H. destruct (process_message_returns _ _ _ H) as (items & -> & Hv).
  pose proof (process_message_data items s) as [_ Hd].
  rewrite H, Hv in Hd. simpl in Hd. rewrite Hd, sum_counts_dict_set.
  unfold bucket. destruct (dict_lookup _ _); lia.
Qed.

Lemma for_each_process_message_sum (msgs : list json) (s s' : state) :
  for_each process_message msgs s = (Return tt, s') ->
  sum_counts (length_counts s') =
  sum_counts (length_counts s) + Z.of_nat (List.length msgs).
Proof.
  revert s. induction msgs as [|m msgs IH]; intros s H.
  - inversion H. simpl. lia.
  - change (m :: msgs) with ([m] ++ msgs) in H.
    apply for_each_app in H. destruct H as (s1 & H1 & H2).
    simpl in H1. unfold bind, ret in H1.
    destruct (process_message m s) as [[[]|e] s0] eqn:E; [|discriminate].
    inversion H1; subst s0. apply process_message_sum in E.
    rewrite (IH _ H2), E. cbn [List.length]. lia.
Qed.

(** C1: for every sequence of messages that [process_message] handles
    without an exception, starting from the initial state, the sum of the
    histogram's counts equals the number of messages processed so far, and
    this holds after every call: every prefix of the sequence is handled too
    and leaves the sum at the length of the prefix. *)
Theorem sum_of_counts_is_number_processed (msgs : list json) (s' : state) :
  for_each process_message msgs init_state = (Return tt, s') ->
  forall k : nat, (k <= List.length msgs)%nat ->
    exists sk,
      for_each process_message (firstn k msgs) init_state = (Return tt, sk) /\
      sum_counts (length_counts sk) = Z.of_nat k.
Proof.
  intros H k Hk. rewrite <- (firstn_skipn k msgs) in H.
  apply for_each_app in H. destruct H as (sk & H1 & _).
  exists sk. split; [exact H1|].
  rewrite (for_each_process_message_sum _ _ _ H1).
  rewrite firstn_length_le by exact Hk. reflexivity.
Qed.

Lemma sum_of_counts_is_number_processed_witness :
  exists sk,
    for_each process_message (firstn 2 records_a_bb_bb) init_state = (Return tt, sk) /\
    sum_counts (length_counts sk) = 2.
Proof.
  apply (sum_of_counts_is_number_processed records_a_bb_bb
           (snd (for_each process_message records_a_bb_bb init_state)));
    [reflexivity | simpl; lia].
Defined.

Lemma items_get_find (key : string) (default : json) (items : list (string * json)) :
  items_get key default items =
  match items_find key items with Some v => v | None => default end.
Proof.
  induction items as [|[k v] items IH]; simpl; [reflexivity|].
  destruct (String.eqb k key); [reflexivity|exact IH].
Qed.

(** The bucket of the length after a call on a dict whose length hashes. *)
Lemma process_message_bucket (items : list (string * json)) (s : state) :
  let v := items_get "message_length" (JInt 0) items in
  hashable v = true ->
  bucket v (snd (process_message (JObj items) s)) = bucket v s + 1.
Proof.
  intros v Hv. pose proof (process_message_data items s) as [_ Hd].
  fold v in Hd. rewrite Hv in Hd. unfold bucket at 1. rewrite Hd.
  rewrite (dict_lookup_set_same v _ _ Hv). reflexivity.
Qed.

(** C3: processing a message object that has no length field appends 0 to
    the sample list and increments the histogram bucket of 0 by one. *)
Theorem missing_length_counts_as_zero (items : list (string * json)) (s : state) :
  items_find "message_length" items = None ->
  let s' := snd (process_message (JObj items) s) in
  message_lengths s' = message_lengths s ++ [JInt 0] /\
  bucket (JInt 0) s' = bucket (JInt 0) s + 1.
Proof.
  intros Habsent s'. subst s'.
  assert (Hv : items_get "message_length" (JInt 0) items = JInt 0)
    by (rewrite items_get_find, Habsent; reflexivity).
  pose proof (process_message_data items s) as [Hl _].
  pose proof (process_message_bucket items s) as Hb.
  rewrite Hv in Hl, Hb. split; [exact Hl|]. apply Hb. reflexivity.
Qed.

Lemma missing_length_counts_as_zero_witness :
  let s' := snd (process_message (JObj [("message", JStr "hi")]) init_state) in
  message_lengths s' = [JInt 0] /\ bucket (JInt 0) s' = 1.
Proof.
  apply (missing_length_counts_as_zero [("message", JStr "hi")] init_state).
  reflexivity.
Defined.

(** C4: processing the same message twice, in any state, leaves the count of
    its length 2 above what it was: nothing is deduplicated.  The message is
    a dict whose length hashes, as every number does. *)
Theorem same_message_twice_counts_twice (items : list (string * json)) (s : state) :
  let v := items_get "message_length" (JInt 0) items in
  hashable v = true ->
  let s1 := snd (process_message (JObj items) s) in
  let s2 := snd (process_message (JObj items) s1) in
  bucket v s1 = bucket v s + 1 /\ bucket v s2 = bucket v s + 2.
Proof.
  intros v Hv s1 s2. subst s1 s2.
  pose proof (process_message_bucket items s Hv) as H1.
  pose proof (process_message_bucket items (snd (process_message (JObj items) s)) Hv) as H2.
  fold v in H1, H2. split; [exact H1|]. rewrite H2, H1. lia.
Qed.

Lemma same_message_twice_counts_twice_witness :
  let s1 := snd (process_message (record_of "bb") init_state) in
  let s2 := snd (process_message (record_of "bb") s1) in
  bucket (JInt 2) s1 = 1 /\ bucket (JInt 2) s2 = 2.
Proof.
  apply (same_message_twice_counts_twice
           [("message", JStr "bb"); ("message_length", JInt 2)] init_state).
  reflexivity.
Defined.

(** ** The shape of the histogram *)

Lemma dict_lookup_In (k : json) (n : Z) (d : list (json * Z)) :
  dict_lookup k d = Some n ->
  exists key, In (key, n) d /\ key_match k key = true.
Proof.
  induction d as [|[key w] d IH]; simpl; [discriminate|].
  destruct (key_match k key) eqn:E; intros H.
  - inversion H; subst. exists key. split; [left; reflexivity|exact E].
  - destruct (IH H) as (key' & Hin & Hm). exists key'. split; [right|]; assumption.
Qed.

Section Shape.

(** A property of keys that new keys are known to have. *)
Variable Q : json -> Prop.

Lemma shaped_bucket (k : json) (s : state) :
  shaped Q (length_counts s) -> 0 <= bucket k s.
Proof.
  intros Hd. unfold bucket.
  destruct (dict_lookup k (length_counts s)) as [n|] eqn:E; [|lia].
  destruct (dict_lookup_In _ _ _ E) as (key & Hin & _).
  unfold shaped in Hd. rewrite Forall_forall in Hd.
  destruct (Hd _ Hin) as [_ Hn]. simpl in Hn. lia.
Qed.

Lemma process_message_shaped (message : json) (s : state) :
  shaped Q (length_counts s) ->
  (forall items,
      message = JObj items ->
      hashable (items_get "message_length" (JInt 0) items) = true ->
      Q (items_get "message_length" (JInt 0) items)) ->
  shaped Q (length_counts (snd (process_message message s))).
Proof.
  intros Hd Hnew.
  destruct message as [| | | | | |items];
    try (rewrite process_message_not_dict by discriminate; exact Hd).
  pose proof (process_message_data items s) as [_ Hc]. rewrite Hc.
  destruct (hashable (items_get "message_length" (JInt 0) items)) eqn:Hv;
    [|exact Hd].
  pose proof (shaped_bucket (items_get "message_length" (JInt 0) items) s Hd).
  apply Forall_dict_set; [exact Hd| |].
  - intros key w Hin _. unfold shaped in Hd. rewrite Forall_forall in Hd.
    destruct (Hd _ Hin) as [Hq _]. simpl in *. split; [exact Hq|lia].
  - simpl. split; [apply (Hnew items); [reflexivity|exact Hv]|lia].
Qed.

Lemma for_each_process_message_shaped (msgs : list json) (s : state) :
  shaped Q (length_counts s) ->
  (forall items,
      In (JObj items) msgs ->
      hashable (items_get "message_length" (JInt 0) items) = true ->
      Q (items_get "message_length" (JInt 0) items)) ->
  shaped Q (length_counts (snd (for_each process_message msgs s))).
Proof.
  revert s. induction msgs as [|m msgs IH]; intros s Hd Hnew; [exact Hd|].
  simpl. unfold bind.
  pose proof (process_message_shaped m s Hd) as Hstep.
  destruct (process_message m s) as [[[]|e] s1]; simpl in Hstep.
  - apply IH.
    + apply Hstep. intros items ->. apply Hnew. left. reflexivity.
    + intros items Hin. apply Hnew. right. exact Hin.
  - apply Hstep. intros items ->. apply Hnew. left. reflexivity.
Qed.

End Shape.

Lemma shaped_as_specified (d : list (json * Z)) :
  shaped (fun k => nonneg_int k = true) d -> histogram_as_specified d = true.
Proof.
  intros H. unfold histogram_as_specified. apply forallb_forall.
  unfold shaped in H. rewrite Forall_forall in H.
  intros kv Hin. destruct (H kv Hin) as [Hk Hn].
  rewrite Hk. simpl. apply Z.ltb_lt. exact Hn.
Qed.

(** C7, as the claim states it, fails: a length of -1 becomes a key. *)
Lemma negative_length_becomes_key :
  histogram_as_specified
    (length_counts
       (snd (for_each process_message
               [JObj [("message_length", JInt (-1))]] init_state))) = false.
Proof. reflexivity. Qed.



(** C9: with an empty sample list [update_chart] clears the axes and
    returns: nothing is drawn, and the histogram and the sample list are as
    they were. *)
Theorem update_chart_without_samples (s : state) :
  message_lengths s = [] ->
  update_chart s =
  (Return tt,
   {| message_lengths := [];
      length_counts := length_counts s;
      effects := effects s ++ [AxClear] |}).
Proof.
  intros H. unfold update_chart, bind, emit, get_state, ret.
  cbn [message_lengths length_counts effects]. rewrite H. reflexivity.
Qed.

Lemma update_chart_without_samples_witness :
  update_chart init_state =
  (Return tt,
   {| message_lengths := [];
      length_counts := [];
      effects := [PltIon; PltSubplots; AxClear] |}).
Proof.
  apply (update_chart_without_samples init_state). reflexivity.
Defined.

(** C10, as the claim states it, fails: a length that is a list is put on
    the sample list, but it cannot be a dict key; the call raises and the
    histogram stays empty. *)
Lemma list_length_is_not_counted :
  process_message (JObj [("message_length", JArr [JInt 1])]) init_state =
  (Raise TypeError,
   {| message_lengths := [JArr [JInt 1]];
      length_counts := [];
      effects :=
        [PltIon; PltSubplots;
         Log INFO (MsgProcessingMessage
                     (JObj [("message_length", JArr [JInt 1])]))] |}).
Proof. reflexivity. Qed.

(** C10, amended: the zero default applies only when the length key is
    absent.  When the key is present its value, whatever it is, is appended
    to the sample list unchanged.  A value that hashes (null, a boolean, a
    number of any sign, a string) is counted under itself: its bucket grows
    by one, and when no key of the histogram equals it, it becomes the new
    last key with count 1.  A value that does not hash (a list, a dict)
    makes the call raise [TypeError] with the histogram unchanged. *)
Theorem present_length_is_used_as_given
  (items : list (string * json)) (v : json) (s : state) :
  items_find "message_length" items = Some v ->
  let r := process_message (JObj items) s in
  message_lengths (snd r) = message_lengths s ++ [v] /\
  (hashable v = true ->
   bucket v (snd r) = bucket v s + 1 /\
   (dict_lookup v (length_counts s) = None ->
    length_counts (snd r) = length_counts s ++ [(v, 1)])) /\
  (hashable v = false ->
   fst r = Raise TypeError /\ length_counts (snd r) = length_counts s).
Proof.
  intros Hfind r. subst r.
  assert (Hv : items_get "message_length" (JInt 0) items = v)
    by (rewrite items_get_find, Hfind; reflexivity).
  pose proof (process_message_data items s) as [Hl Hc].
  rewrite Hv in Hl, Hc. split; [exact Hl|]. split.
  - intros Hh. rewrite Hh in Hc. split.
    + pose proof (process_message_bucket items s) as Hb.
      rewrite Hv in Hb. exact (Hb Hh).
    + intros Hnone. rewrite Hc. unfold bucket. rewrite Hnone.
      apply dict_set_fresh. exact Hnone.
  - intros Hh. rewrite Hh in Hc. split; [|exact Hc].
    pose proof (process_message_unhashable items s) as Hu.
    rewrite Hv in Hu. rewrite (Hu Hh). reflexivity.
Qed.

Lemma present_length_is_used_as_given_witness :
  let r := process_message (JObj [("message_length", JNull)]) init_state in
  message_lengths (snd r) = [JNull] /\
  bucket JNull (snd r) = 1 /\
  length_counts (snd r) = [(JNull, 1)].
Proof.
  pose proof (present_length_is_used_as_given
                [("message_length", JNull)] JNull init_state eq_refl) as H.
  destruct H as (Hl & Hh & _). destruct (Hh eq_refl) as [Hb Hn].
  split; [exact Hl|]. split; [exact Hb|]. exact (Hn eq_refl).
Defined.

(** ** Choosing the source, and errors while consuming *)

Lemma and_then_app (s : state) (es fs : list effect) :
  and_then (and_then s es) fs = and_then s (es ++ fs).
Proof. unfold and_then. simpl. rewrite <- app_assoc. reflexivity. Qed.

Lemma for_each_cut {A} (body : A -> M unit) (x : A) :
  (forall s0, exists e s1, body x s0 = (Raise e, s1)) ->
  forall (xs ys : list A) (s : state),
    for_each body (xs ++ x :: ys) s = for_each body (xs ++ [x]) s /\
    exists e, fst (for_each body (xs ++ [x]) s) = Raise e.
Proof.
  intros Hx xs ys. induction xs as [|a xs IH]; intros s; simpl; unfold bind.
  - destruct (Hx s) as (e & s1 & E). rewrite E. split; [reflexivity|].
    exists e. reflexivity.
  - destruct (body a s) as [[[]|e] s0]; [apply IH|].
    split; [reflexivity|]. exists e. reflexivity.
Qed.

Lemma bind_emit {A} (e : effect) (c : M A) (s : state) :
  (emit e ;; c) s = c (and_then s [e]).
Proof. reflexivity. Qed.

Lemma try_except_logged (body : M unit) (m : exn -> log_msg) (s : state) :
  fst (try_except body (fun e => logger_error (m e)) s) = Return tt.
Proof.
  unfold try_except. destruct (body s) as [[[]|e] s1]; reflexivity.
Qed.


Lemma consume_from_file_returns (w : env) (s : state) :
  fst (consume_from_file w s) = Return tt.
Proof.
  unfold consume_from_file.
  destruct (DATA_FILE w); try reflexivity;
    unfold logger_info; rewrite bind_emit; apply try_except_logged.
Qed.

Lemma consume_from_kafka_connect_fails (w : env) (e : exn) (s : state) :
  KAFKA_AVAILABLE w = true ->
  kafka_broker w (get_kafka_topic w) (get_kafka_server w) = ConnectFails e ->
  consume_from_kafka w s =
  (Return tt, and_then s [Log ERROR (MsgKafkaConsumerError e)]).
Proof.
  intros Ha Hb. unfold consume_from_kafka, try_except, bind, KafkaConsumer.
  rewrite Ha, Hb. reflexivity.
Qed.

(** C2, as the claim states it, fails: with the client library installed and
    no broker answering, the run logs the Kafka error and ends; the three
    records in the data file are never read. *)
Lemma failed_connection_does_not_fall_back :
  main no_broker_world init_state =
  (Return tt,
   {| message_lengths := [];
      length_counts := [];
      effects :=
        [PltIon; PltSubplots;
         Log INFO MsgStartConsumer;
         Log ERROR (MsgKafkaConsumerError NoBrokersAvailable);
         PltIoff; PltShow] |}).
Proof. reflexivity. Qed.

(** [main], by the branch it takes. *)
Lemma main_available (w : env) (s : state) :
  KAFKA_AVAILABLE w = true ->
  main w s =
  match consume_from_kafka w (and_then s [Log INFO MsgStartConsumer]) with
  | (Return _, s1) => (Return tt, and_then s1 [PltIoff; PltShow])
  | (Raise e, s1) => (Raise e, s1)
  end.
Proof.
  intros Ha. unfold main, logger_info. rewrite bind_emit, Ha.
  unfold bind at 1.
  destruct (consume_from_kafka w _) as [[[]|e] s1]; [|reflexivity].
  rewrite bind_emit.
  transitivity (Return tt, and_then (and_then s1 [PltIoff]) [PltShow]);
    [reflexivity | rewrite and_then_app; reflexivity].
Qed.

Lemma main_unavailable (w : env) (s : state) :
  KAFKA_AVAILABLE w = false ->
  main w s =
  match consume_from_file w
          (and_then s [Log INFO MsgStartConsumer; Log WARNING MsgKafkaNotAvailable])
  with
  | (Return _, s1) => (Return tt, and_then s1 [PltIoff; PltShow])
  | (Raise e, s1) => (Raise e, s1)
  end.
Proof.
  intros Ha. unfold main, logger_info, logger_warning. rewrite bind_emit, Ha.
  unfold bind at 1. rewrite bind_emit, and_then_app. cbn [app].
  destruct (consume_from_file w _) as [[[]|e] s1]; [|reflexivity].
  rewrite bind_emit.
  transitivity (Return tt, and_then (and_then s1 [PltIoff]) [PltShow]);
    [reflexivity | rewrite and_then_app; reflexivity].
Qed.

(** C2, amended: the source is chosen once per run, by whether the client
    library is available, and there is no retry between sources.  With the
    library available the run never touches the data file, and a failed
    connection is logged and ends the run's consumption; the file is read
    only when the library is unavailable, and then the broker is never
    contacted. *)
Theorem source_is_chosen_once_by_library (w : env) (s : state) :
  (KAFKA_AVAILABLE w = true ->
   (forall f, main (with_data_file w f) s = main w s) /\
   (forall e,
       kafka_broker w (get_kafka_topic w) (get_kafka_server w) = ConnectFails e ->
       main w s =
       (Return tt,
        and_then s [Log INFO MsgStartConsumer;
                    Log ERROR (MsgKafkaConsumerError e);
                    PltIoff; PltShow]))) /\
  (KAFKA_AVAILABLE w = false ->
   (forall b, main (with_kafka_broker w b) s = main w s) /\
   exists s1,
     consume_from_file w
       (and_then s [Log INFO MsgStartConsumer; Log WARNING MsgKafkaNotAvailable])
     = (Return tt, s1) /\
     main w s = (Return tt, and_then s1 [PltIoff; PltShow])).
Proof.
  split; intros Ha.
  - split.
    + intros f. unfold main. cbn [KAFKA_AVAILABLE with_data_file]. rewrite Ha.
      reflexivity.
    + intros e Hb. rewrite (main_available w s Ha).
      rewrite (consume_from_kafka_connect_fails w e _ Ha Hb).
      rewrite !and_then_app. reflexivity.
  - split.
    + intros b. unfold main. cbn [KAFKA_AVAILABLE with_kafka_broker]. rewrite Ha.
      reflexivity.
    + rewrite (main_unavailable w s Ha).
      pose proof (consume_from_file_returns w
        (and_then s [Log INFO MsgStartConsumer; Log WARNING MsgKafkaNotAvailable]))
        as Hr.
      destruct (consume_from_file w _) as [[[]|e] s1]; [|discriminate].
      exists s1. split; reflexivity.
Qed.

Lemma source_is_chosen_once_by_library_witness :
  main (with_data_file no_broker_world FileAbsent) init_state =
  main no_broker_world init_state.
Proof.
  apply (proj1 (proj1 (source_is_chosen_once_by_library no_broker_world init_state)
                  eq_refl)).
Defined.

Lemma open_lines {A} (lines : list file_line) (k : list file_line -> M A) (s : state) :
  (ls <- open_data_file (FileLines lines) ;; k ls) s = k lines s.
Proof. reflexivity. Qed.

Lemma consume_from_file_lines (w : env) (lines : list file_line) (s : state) :
  DATA_FILE w = FileLines lines ->
  consume_from_file w s =
  match for_each read_line lines (and_then s [Log INFO MsgReadingMessagesFrom]) with
  | (Return _, s1) => (Return tt, s1)
  | (Raise e, s1) => (Return tt, and_then s1 [Log ERROR (MsgErrorReadingFromFile e)])
  end.
Proof.
  intros H. unfold consume_from_file. rewrite H. unfold logger_info.
  rewrite bind_emit. unfold try_except. rewrite open_lines.
  destruct (for_each read_line lines _) as [[[]|e] s1]; reflexivity.
Qed.






(** The run on that file: the first record is counted, the third never is. *)
Example bad_second_line_run :
  let s := snd (consume_from_file (file_world (FileLines lines_with_bad_second))
                  init_state) in
  message_lengths s = [JInt 1] /\
  length_counts s = [(JInt 1, 1)] /\
  last (effects s) AxClear = Log ERROR (MsgErrorReadingFromFile JSONDecodeError).
Proof. repeat split. Qed.

(** C6: when the client library is unavailable and the data file does not
    exist, file mode logs the error and returns before any message is
    processed; the whole run leaves the sample list and the histogram empty
    and makes no chart update. *)
Theorem missing_file_without_broker (w : env) :
  KAFKA_AVAILABLE w = false ->
  DATA_FILE w = FileAbsent ->
  (forall s,
      consume_from_file w s =
      (Return tt, and_then s [Log ERROR MsgDataFileNotFound])) /\
  main w init_state =
  (Return tt,
   {| message_lengths := [];
      length_counts := [];
      effects :=
        [PltIon; PltSubplots;
         Log INFO MsgStartConsumer;
         Log WARNING MsgKafkaNotAvailable;
         Log ERROR MsgDataFileNotFound;
         PltIoff; PltShow] |}).
Proof.
  intros Ha Hf.
  assert (Hc : forall s, consume_from_file w s =
                         (Return tt, and_then s [Log ERROR MsgDataFileNotFound]))
    by (intros s; unfold consume_from_file; rewrite Hf; reflexivity).
  split; [exact Hc|].
  rewrite (main_unavailable w init_state Ha), Hc. reflexivity.
Qed.

Lemma missing_file_without_broker_witness :
  main (file_world FileAbsent) init_state =
  (Return tt,
   {| message_lengths := [];
      length_counts := [];
      effects :=
        [PltIon; PltSubplots;
         Log INFO MsgStartConsumer;
         Log WARNING MsgKafkaNotAvailable;
         Log ERROR MsgDataFileNotFound;
         PltIoff; PltShow] |}).
Proof.
  apply (proj2 (missing_file_without_broker (file_world FileAbsent) eq_refl eq_refl)).
Defined.

(** * More of the program's behaviour *)

(** ** [sorted] on the keys of the histogram *)

Lemma py_lt_same_class (x y : json) :
  class_of x = class_of y -> class_of y <> Unordered ->
  exists b, py_lt x y = Return b.
Proof.
  destruct x, y; simpl; intros H1 H2; try discriminate; try congruence; eauto.
Qed.

Lemma py_lt_other_class (x y : json) :
  class_of x <> class_of y \/ class_of y = Unordered ->
  py_lt x y = Raise TypeError.
Proof.
  destruct x, y; simpl; intros [H|H]; try reflexivity; try discriminate;
    congruence.
Qed.

Lemma insert_sorted_same_class (c : key_class) (x : json) (l : list json) :
  c <> Unordered -> class_of x = c ->
  Forall (fun y => class_of y = c) l ->
  exists r, insert_sorted x l = Return r /\ Permutation (x :: l) r.
Proof.
  intros Hc Hx Hl. induction Hl as [|y l Hy Hl IH]; simpl.
  - exists [x]. split; [reflexivity|apply Permutation_refl].
  - destruct (py_lt_same_class x y) as [b Hb]; [congruence|congruence|].
    rewrite Hb. destruct b.
    + exists (x :: y :: l). split; [reflexivity|apply Permutation_refl].
    + destruct IH as (r & Hr & Hp). rewrite Hr. exists (y :: r).
      split; [reflexivity|].
      apply Permutation_trans with (y :: x :: l); [apply perm_swap|].
      apply perm_skip. exact Hp.
Qed.

Lemma sorted_from_same_class (c : key_class) (l acc : list json) :
  c <> Unordered ->
  Forall (fun y => class_of y = c) acc ->
  Forall (fun y => class_of y = c) l ->
  exists r, sorted_from acc l = Return r /\ Permutation (acc ++ l) r.
Proof.
  intros Hc. revert acc. induction l as [|x l IH]; intros acc Hacc Hl; simpl.
  - exists acc. split; [reflexivity|]. rewrite app_nil_r. apply Permutation_refl.
  - apply Forall_cons_iff in Hl. destruct Hl as [Hx Hl'].
    destruct (insert_sorted_same_class c x acc Hc Hx Hacc) as (acc' & Hi & Hp).
    rewrite Hi.
    assert (Hacc' : Forall (fun y => class_of y = c) acc').
    { rewrite Forall_forall in *. intros y Hy.
      apply (Permutation_in _ (Permutation_sym Hp)) in Hy.
      destruct Hy as [<-|Hy]; [exact Hx|exact (Hacc y Hy)]. }
    destruct (IH acc' Hacc' Hl') as (r & Hr & Hp').
    exists r. split; [exact Hr|].
    apply Permutation_trans with (acc' ++ l); [|exact Hp'].
    apply Permutation_trans with ((x :: acc) ++ l).
    + apply Permutation_sym, Permutation_middle.
    + apply Permutation_app_tail. exact Hp.
Qed.

Lemma insert_sorted_other_class (c : key_class) (x y : json) (l : list json) :
  class_of y = c -> class_of x <> c \/ c = Unordered ->
  insert_sorted x (y :: l) = Raise TypeError.
Proof.
  intros Hy Hx. simpl. rewrite py_lt_other_class; [reflexivity|].
  destruct Hx as [Hx|Hx]; [left|right]; congruence.
Qed.

Lemma sorted_from_other_class (c : key_class) (l acc : list json) :
  acc <> [] ->
  Forall (fun y => class_of y = c) acc ->
  (exists x, In x l /\ (class_of x <> c \/ c = Unordered)) ->
  sorted_from acc l = Raise TypeError.
Proof.
  revert acc. induction l as [|x l IH]; intros acc Hne Hacc (z & Hin & Hz).
  - destruct Hin.
  - simpl.
    destruct acc as [|y acc]; [congruence|].
    assert (Hy : class_of y = c) by (inversion Hacc; assumption).
    destruct c.
    + destruct (class_of x) eqn:Hx;
        try (rewrite (insert_sorted_other_class Numeric x y acc Hy);
             [reflexivity|left; congruence]).
      destruct (insert_sorted_same_class Numeric x (y :: acc)) as (r & Hr & Hp);
        [discriminate|exact Hx|exact Hacc|].
      rewrite Hr. apply IH.
      * intros ->. apply Permutation_sym, Permutation_nil in Hp. discriminate.
      * rewrite Forall_forall in *. intros k Hk.
        apply (Permutation_in _ (Permutation_sym Hp)) in Hk.
        destruct Hk as [<-|Hk]; [exact Hx|exact (Hacc k Hk)].
      * destruct Hin as [<-|Hin]; [|exists z; split; assumption].
        destruct Hz as [Hz|Hz]; congruence.
    + destruct (class_of x) eqn:Hx;
        try (rewrite (insert_sorted_other_class Text x y acc Hy);
             [reflexivity|left; congruence]).
      destruct (insert_sorted_same_class Text x (y :: acc)) as (r & Hr & Hp);
        [discriminate|exact Hx|exact Hacc|].
      rewrite Hr. apply IH.
      * intros ->. apply Permutation_sym, Permutation_nil in Hp. discriminate.
      * rewrite Forall_forall in *. intros k Hk.
        apply (Permutation_in _ (Permutation_sym Hp)) in Hk.
        destruct Hk as [<-|Hk]; [exact Hx|exact (Hacc k Hk)].
      * destruct Hin as [<-|Hin]; [|exists z; split; assumption].
        destruct Hz as [Hz|Hz]; congruence.
    + rewrite (insert_sorted_other_class Unordered x y acc Hy);
        [reflexivity|right; reflexivity].
Qed.

Lemma key_class_eq_dec (a b : key_class) : {a = b} + {a <> b}.
Proof. decide equality. Qed.

(** Two keys of different classes: [sorted] raises. *)
Lemma sorted_from_mixed (l : list json) (x y : json) :
  In x l -> In y l -> class_of x <> class_of y ->
  sorted_from [] l = Raise TypeError.
Proof.
  intros Hx Hy Hxy. destruct l as [|a l]; [destruct Hx|]. simpl.
  apply (sorted_from_other_class (class_of a)).
  - discriminate.
  - constructor; [reflexivity|constructor].
  - destruct (key_class_eq_dec (class_of x) (class_of a)) as [Ex|Ex].
    + exists y. split.
      * destruct Hy as [<-|Hy]; [congruence|exact Hy].
      * left. congruence.
    + exists x. split.
      * destruct Hx as [<-|Hx]; [congruence|exact Hx].
      * left. exact Ex.
Qed.

(** ** Redrawing the chart *)

Lemma class_hashable (k : json) : class_of k <> Unordered -> hashable k = true.
Proof. destruct k; simpl; congruence. Qed.

Lemma key_match_class (a b : json) :
  key_match a b = true -> class_of a = class_of b.
Proof.
  destruct a as [|x|x|[[|]|[|]| |[|] m e]|x|x|x],
           b as [|y|y|[[|]|[|]| |[|] m' e']|y|y|y];
    simpl; intros H; try reflexivity; discriminate.
Qed.

Lemma dict_lookup_key (k : json) (d : list (json * Z)) :
  In k (map fst d) -> hashable k = true ->
  exists n, dict_lookup k d = Some n.
Proof.
  intros Hin Hk. induction d as [|[key w] d IH]; simpl in *; [destruct Hin|].
  destruct (key_match k key) eqn:E; [exists w; reflexivity|].
  destruct Hin as [->|Hin]; [|exact (IH Hin)].
  rewrite (key_match_refl k Hk) in E. discriminate.
Qed.

Lemma dict_set_keys (k : json) (v : Z) (d : list (json * Z)) :
  map fst (dict_set k v d) =
  match dict_lookup k d with
  | Some _ => map fst d
  | None => map fst d ++ [k]
  end.
Proof.
  induction d as [|[key w] d IH]; simpl; [reflexivity|].
  destruct (key_match k key); simpl; [reflexivity|].
  rewrite IH. destruct (dict_lookup k d); reflexivity.
Qed.

Lemma bind_return {A B} (c : M A) (k : A -> M B) (a : A) (s s' : state) :
  c s = (Return a, s') -> (x <- c ;; k x) s = k a s'.
Proof. intros H. unfold bind. rewrite H. reflexivity. Qed.

Lemma bind_raise {A B} (c : M A) (k : A -> M B) (e : exn) (s s' : state) :
  c s = (Raise e, s') -> (x <- c ;; k x) s = (Raise e, s').
Proof. intros H. unfold bind. rewrite H. reflexivity. Qed.

(** The list comprehension over keys that are in the dict reads their
    counts and changes nothing. *)
Lemma counts_of_keys (ks : list json) (s : state) :
  Forall (fun k => hashable k = true /\ In k (map fst (length_counts s))) ks ->
  list_comprehension length_counts_getitem ks s =
  (Return (map (fun k => bucket k s) ks), s).
Proof.
  intros H. induction H as [|k ks [Hk Hin] _ IH]; simpl; [reflexivity|].
  destruct (dict_lookup_key k _ Hin Hk) as [n Hn].
  assert (Hg : length_counts_getitem k s = (Return n, s))
    by (unfold length_counts_getitem; rewrite Hk, Hn; reflexivity).
  rewrite (bind_return _ _ _ _ _ Hg), (bind_return _ _ _ _ _ IH).
  unfold ret, bucket. rewrite Hn. reflexivity.
Qed.

Lemma emit_bar_chart (ks : list json) (cs : list Z) (s : state) :
  (emit (AxBar ks cs (List.length ks)) ;;
   emit (AxSetXlabel "Message Length") ;;
   emit (AxSetYlabel "Count") ;;
   emit (AxSetTitle "Counts of Messages by Message Length") ;;
   emit (AxSetXticks ks) ;;
   emit PltDraw ;;
   emit PltPause) s =
  (Return tt, and_then s (bar_chart ks cs)).
Proof.
  unfold bind, emit, and_then, bar_chart. simpl.
  repeat rewrite <- app_assoc. reflexivity.
Qed.

(** Keys of one class that orders: the chart is redrawn, one bar per key. *)
Lemma update_chart_same_class (c : key_class) (s : state) :
  message_lengths s <> [] ->
  c <> Unordered ->
  Forall (fun k => class_of k = c) (map fst (length_counts s)) ->
  exists ks,
    Permutation (map fst (length_counts s)) ks /\
    update_chart s =
    (Return tt,
     and_then s (AxClear :: bar_chart ks (map (fun k => bucket k s) ks))).
Proof.
  intros Hne Hc Hkeys.
  destruct (sorted_from_same_class c (map fst (length_counts s)) [] Hc
              (Forall_nil _) Hkeys) as (ks & Hs & Hp).
  simpl in Hp. exists ks. split; [exact Hp|].
  unfold update_chart. rewrite bind_emit.
  rewrite (bind_return get_state _ (and_then s [AxClear]) _ _ eq_refl).
  cbn [message_lengths and_then length_counts].
  destruct (message_lengths s) as [|m ms]; [congruence|].
  set (s0 := and_then s [AxClear]).
  assert (Hsorted : sorted (map fst (length_counts s)) s0 = (Return ks, s0))
    by (unfold sorted; rewrite Hs; reflexivity).
  rewrite (bind_return _ _ _ _ _ Hsorted).
  assert (Hcounts : list_comprehension length_counts_getitem ks s0 =
                    (Return (map (fun k => bucket k s0) ks), s0)).
  { apply counts_of_keys. rewrite Forall_forall in *. intros k Hk.
    apply (Permutation_in _ (Permutation_sym Hp)) in Hk.
    split; [|exact Hk]. apply class_hashable. rewrite (Hkeys k Hk). exact Hc. }
  rewrite (bind_return _ _ _ _ _ Hcounts).
  rewrite emit_bar_chart. subst s0. rewrite and_then_app. reflexivity.
Qed.

(** Keys of two classes: the axes are cleared and [sorted] raises. *)
Lemma update_chart_mixed (x y : json) (s : state) :
  message_lengths s <> [] ->
  In x (map fst (length_counts s)) ->
  In y (map fst (length_counts s)) ->
  class_of x <> class_of y ->
  update_chart s = (Raise TypeError, and_then s [AxClear]).
Proof.
  intros Hne Hx Hy Hxy.
  unfold update_chart. rewrite bind_emit.
  rewrite (bind_return get_state _ (and_then s [AxClear]) _ _ eq_refl).
  cbn [message_lengths and_then length_counts].
  destruct (message_lengths s) as [|m ms]; [congruence|].
  apply bind_raise. unfold sorted.
  rewrite (sorted_from_mixed _ x y Hx Hy Hxy). reflexivity.
Qed.

(** Integer keys come out in ascending order. *)
Lemma insert_sorted_ints (z : Z) (acc : list Z) :
  Sorted Z.le acc ->
  exists r,
    insert_sorted (JInt z) (map JInt acc) = Return (map JInt r) /\
    Sorted Z.le r /\
    Permutation (z :: acc) r /\
    (forall y, y <= z -> HdRel Z.le y acc -> HdRel Z.le y r).
Proof.
  induction acc as [|a acc IH]; intros Hs.
  - exists [z]. repeat split.
    + constructor; constructor.
    + apply Permutation_refl.
    + intros y Hy _. constructor. exact Hy.
  - apply Sorted_inv in Hs. destruct Hs as [Hs Hh].
    cbn [map insert_sorted py_lt as_number number_compare].
    destruct (z ?= a) eqn:E.
    + destruct (IH Hs) as (r & Hr & Hsr & Hp & Hhd). rewrite Hr.
      apply Z.compare_eq in E. subst a.
      exists (z :: r). repeat split.
      * constructor; [exact Hsr|]. apply Hhd; [lia|exact Hh].
      * apply perm_skip. exact Hp.
      * intros y Hy _. constructor. exact Hy.
    + exists (z :: a :: acc). repeat split.
      * constructor; [constructor; assumption|]. constructor.
        unfold Z.le. rewrite E. discriminate.
      * apply Permutation_refl.
      * intros y Hy _. constructor. exact Hy.
    + destruct (IH Hs) as (r & Hr & Hsr & Hp & Hhd). rewrite Hr.
      assert (Haz : a <= z) by (apply Z.lt_le_incl, Z.compare_gt_iff, E).
      exists (a :: r). repeat split.
      * constructor; [exact Hsr|]. apply Hhd; [exact Haz|exact Hh].
      * apply Permutation_trans with (a :: z :: acc); [apply perm_swap|].
        apply perm_skip. exact Hp.
      * intros y Hy Hya. inversion Hya; subst. constructor. assumption.
Qed.

Lemma sorted_from_ints (l acc : list Z) :
  Sorted Z.le acc ->
  exists r,
    sorted_from (map JInt acc) (map JInt l) = Return (map JInt r) /\
    Sorted Z.le r /\
    Permutation (acc ++ l) r.
Proof.
  revert acc. induction l as [|z l IH]; intros acc Hs.
  - exists acc. simpl. rewrite app_nil_r.
    repeat split; [exact Hs|apply Permutation_refl].
  - destruct (insert_sorted_ints z acc Hs) as (acc' & Hi & Hs' & Hp & _).
    destruct (IH acc' Hs') as (r & Hr & Hsr & Hpr).
    exists r. cbn [map sorted_from]. rewrite Hi, Hr.
    repeat split; [exact Hsr|].
    apply Permutation_trans with (acc' ++ l); [|exact Hpr].
    apply Permutation_trans with ((z :: acc) ++ l).
    + apply Permutation_sym, Permutation_middle.
    + apply Permutation_app_tail. exact Hp.
Qed.



(** ** [process_message], by the class of the length *)

Lemma counted_keys (message v : json) (s : state) :
  map fst (length_counts (counted message v s)) =
  match dict_lookup v (length_counts s) with
  | Some _ => map fst (length_counts s)
  | None => map fst (length_counts s) ++ [v]
  end.
Proof. unfold counted. cbn [length_counts]. apply dict_set_keys. Qed.

Lemma counted_keeps_keys (message v key : json) (s : state) :
  In key (map fst (length_counts s)) ->
  In key (map fst (length_counts (counted message v s))).
Proof.
  intros H. rewrite counted_keys.
  destruct (dict_lookup v (length_counts s)); [exact H|].
  apply in_or_app. left. exact H.
Qed.

Lemma counted_has_class (message v : json) (s : state) :
  exists k, In k (map fst (length_counts (counted message v s))) /\
            class_of k = class_of v.
Proof.
  rewrite counted_keys.
  destruct (dict_lookup v (length_counts s)) as [n|] eqn:E.
  - destruct (dict_lookup_In _ _ _ E) as (key & Hin & Hm).
    exists key. split.
    + apply in_map_iff. exists (key, n). split; [reflexivity|exact Hin].
    + symmetry. apply key_match_class. exact Hm.
  - exists v. split; [|reflexivity]. apply in_or_app. right. left. reflexivity.
Qed.

Lemma counted_class (c : key_class) (message v : json) (s : state) :
  class_of v = c ->
  Forall (fun k => class_of k = c) (map fst (length_counts s)) ->
  Forall (fun k => class_of k = c) (map fst (length_counts (counted message v s))).
Proof.
  intros Hv Hk. rewrite counted_keys.
  destruct (dict_lookup v (length_counts s)); [exact Hk|].
  apply Forall_app. split; [exact Hk|]. constructor; [exact Hv|constructor].
Qed.

Lemma counted_has_samples (message v : json) (s : state) :
  message_lengths (counted message v s) <> [].
Proof.
  unfold counted. cbn [message_lengths].
  destruct (message_lengths s); discriminate.
Qed.


(** X4: a dict message whose length hashes but is of another class than
    some key of the histogram (a string after a number, null next to
    anything) is counted and then raises [TypeError] out of [sorted]: the
    length is on the sample list and in its bucket, the axes are cleared, and
    no bar is drawn. *)
Theorem length_of_another_class_raises_after_counting
  (items : list (string * json)) (key : json) (s : state) :
  let v := items_get "message_length" (JInt 0) items in
  hashable v = true ->
  In key (map fst (length_counts s)) ->
  class_of key <> class_of v ->
  process_message (JObj items) s =
  (Raise TypeError,
   {| message_lengths := message_lengths s ++ [v];
      length_counts := dict_set v (bucket v s + 1) (length_counts s);
      effects :=
        effects s ++ [Log INFO (MsgProcessingMessage (JObj items)); AxClear] |}).
Proof.
  intros v Hh Hin Hc.
  rewrite (process_message_hashable items s Hh). fold v.
  destruct (counted_has_class (JObj items) v s) as (k & Hk & Hkc).
  rewrite (update_chart_mixed key k (counted (JObj items) v s)).
  - unfold and_then, counted. cbn [message_lengths length_counts effects].
    rewrite <- app_assoc. reflexivity.
  - apply counted_has_samples.
  - apply counted_keeps_keys. exact Hin.
  - exact Hk.
  - congruence.
Qed.

Lemma length_of_another_class_raises_after_counting_witness :
  process_message (JObj [("message_length", JInt 3)]) state_abc =
  (Raise TypeError,
   {| message_lengths := [JStr "abc"; JInt 3];
      length_counts := [(JStr "abc", 1); (JInt 3, 1)];
      effects :=
        [Log INFO (MsgProcessingMessage (JObj [("message_length", JInt 3)]));
         AxClear] |}).
Proof.
  apply (length_of_another_class_raises_after_counting
           [("message_length", JInt 3)] (JStr "abc") state_abc).
  - reflexivity.
  - left. reflexivity.
  - discriminate.
Defined.

(** ** Records that cannot be counted *)

Lemma process_message_uncountable (message : json) (s : state) :
  countable message = false ->
  exists e s1, process_message message s = (Raise e, s1).
Proof.
  intros H. destruct message as [| | | | | |items];
    try (rewrite process_message_not_dict by discriminate; eauto).
  simpl in H. rewrite (process_message_unhashable items s H). eauto.
Qed.

Lemma read_line_uncountable (message : json) :
  countable message = false ->
  forall s, exists e s1, read_line (LineJson message) s = (Raise e, s1).
Proof.
  intros H s. unfold read_line.
  rewrite (bind_return (json_loads (LineJson message)) _ message s s eq_refl).
  unfold logger_info. rewrite bind_emit.
  destruct (process_message_uncountable message
              (and_then s [Log INFO (MsgReadFromFile message)]) H)
    as (e & s1 & Hp).
  exists e, s1. apply bind_raise. exact Hp.
Qed.

(** X8: a line that is valid JSON but cannot be counted (it is not a dict,
    or its length is a list or a dict) ends file mode just as a malformed
    line does: the run is the same as on the file cut after that line, and
    it ends with the error logged. *)
Theorem uncountable_record_ends_file_mode
  (w : env) (message : json) (before after : list file_line) (s : state) :
  countable message = false ->
  DATA_FILE w = FileLines (before ++ LineJson message :: after) ->
  consume_from_file w s =
  consume_from_file
    (with_data_file w (FileLines (before ++ [LineJson message]))) s /\
  exists s1 e,
    consume_from_file w s =
    (Return tt, and_then s1 [Log ERROR (MsgErrorReadingFromFile e)]).
Proof.
  intros Hc Hf.
  rewrite (consume_from_file_lines w _ s Hf).
  rewrite (consume_from_file_lines
             (with_data_file w (FileLines (before ++ [LineJson message])))
             (before ++ [LineJson message]) s eq_refl).
  destruct (for_each_cut read_line (LineJson message)
              (read_line_uncountable message Hc) before after
              (and_then s [Log INFO MsgReadingMessagesFrom])) as [Hcut [e He]].
  rewrite Hcut. split; [reflexivity|].
  destruct (for_each read_line (before ++ [LineJson message]) _) as [[[]|e'] s1];
    [discriminate|]. exists s1, e'. reflexivity.
Qed.

Lemma uncountable_record_ends_file_mode_witness :
  consume_from_file (file_world (FileLines lines_with_list_second)) init_state =
  consume_from_file
    (with_data_file (file_world (FileLines lines_with_list_second))
       (FileLines [LineJson (record_of "a"); LineJson (JArr [JInt 1])]))
    init_state /\
  exists s1 e,
    consume_from_file (file_world (FileLines lines_with_list_second)) init_state =
    (Return tt, and_then s1 [Log ERROR (MsgErrorReadingFromFile e)]).
Proof.
  apply (uncountable_record_ends_file_mode
           (file_world (FileLines lines_with_list_second))
           (JArr [JInt 1]) [LineJson (record_of "a")] [LineJson (record_of "bb")]
           init_state).
  - reflexivity.
  - reflexivity.
Defined.


(** ** What a call can and cannot change *)

Lemma dict_set_grows (k v : json) (d : list (json * Z)) :
  match dict_lookup k d with Some n => n | None => 0 end <=
  match dict_lookup k
          (dict_set v (match dict_lookup v d with Some n => n | None => 0 end + 1) d)
  with Some n => n | None => 0 end.
Proof.
  induction d as [|[key w] d IH]; cbn [dict_lookup dict_set].
  - destruct (key_match k v); lia.
  - destruct (key_match v key) eqn:Ev; cbn [dict_lookup];
      destruct (key_match k key); lia.
Qed.

(** X10: a call of [process_message], on any value and in any state and
    whatever its outcome, never lowers the count of a bucket, never removes
    or reorders a key of the histogram (it adds at most one, at the end),
    and never removes a sample (it appends at most one). *)
Theorem histogram_only_grows (message : json) (s : state) :
  let s' := snd (process_message message s) in
  (forall k, bucket k s <= bucket k s') /\
  (exists new,
      map fst (length_counts s') = map fst (length_counts s) ++ new /\
      (List.length new <= 1)%nat) /\
  (exists new,
      message_lengths s' = message_lengths s ++ new /\
      (List.length new <= 1)%nat).
Proof.
  intros s'. subst s'.
  destruct message as [| | | | | |items];
    try (rewrite process_message_not_dict by discriminate; cbn [snd];
         repeat split;
         [ intros k; unfold bucket; cbn [length_counts]; lia
         | exists []; cbn [length_counts]; rewrite app_nil_r; split; [reflexivity|simpl; lia]
         | exists []; cbn [message_lengths]; rewrite app_nil_r; split; [reflexivity|simpl; lia] ]).
  pose proof (process_message_data items s) as [Hl Hc]. cbv zeta in Hl, Hc.
  split; [|split].
  - intros k. unfold bucket. rewrite Hc.
    destruct (hashable (items_get "message_length" (JInt 0) items)); [|lia].
    apply dict_set_grows.
  - rewrite Hc.
    destruct (hashable (items_get "message_length" (JInt 0) items)).
    + rewrite dict_set_keys.
      destruct (dict_lookup _ (length_counts s)).
      * exists []. rewrite app_nil_r. split; [reflexivity|simpl; lia].
      * eexists. split; [reflexivity|simpl; lia].
    + exists []. rewrite app_nil_r. split; [reflexivity|simpl; lia].
  - eexists. split; [exact Hl|simpl; lia].
Qed.

(** ** The sample list and the histogram *)

Lemma samples_ahead_counted (message v : json) (s s' : state) :
  message_lengths s' = message_lengths s ++ [v] ->
  length_counts s' = dict_set v (bucket v s + 1) (length_counts s) ->
  samples_ahead s' = samples_ahead s.
Proof.
  intros Hl Hc. unfold samples_ahead. rewrite Hl, Hc, sum_counts_dict_set.
  rewrite length_app, Nat2Z.inj_add. unfold bucket. cbn [List.length].
  destruct (dict_lookup v (length_counts s)); lia.
Qed.

Lemma for_each_samples_ahead (msgs : list json) (s : state) :
  samples_ahead s = 0 ->
  let s' := snd (for_each process_message msgs s) in
  (samples_ahead s' = 0 \/ samples_ahead s' = 1) /\
  (existsb unhashable_length msgs = false -> samples_ahead s' = 0).
Proof.
  revert s. induction msgs as [|m msgs IH]; intros s Hs; cbn [for_each].
  - cbn. split; [left; exact Hs|intros _; exact Hs].
  - unfold bind.
    destruct m as [| | | | | |items];
      try (rewrite process_message_not_dict by discriminate; cbn [snd];
           split; [left|intros _]; exact Hs).
    pose proof (process_message_data items s) as [Hl Hc]. cbv zeta in Hl, Hc.
    cbn [existsb unhashable_length].
    destruct (hashable (items_get "message_length" (JInt 0) items)) eqn:Hh.
    + assert (H1 : samples_ahead (snd (process_message (JObj items) s)) = 0)
        by (rewrite (samples_ahead_counted (JObj items) _ s _ Hl Hc); exact Hs).
      destruct (process_message (JObj items) s) as [[[]|e] s1]; cbn [snd] in *.
      * exact (IH s1 H1).
      * split; [left|intros _]; exact H1.
    + rewrite (process_message_unhashable items s Hh). cbn [snd negb orb].
      split; [right|discriminate].
      unfold samples_ahead, rejected. cbn [message_lengths length_counts].
      rewrite length_app, Nat2Z.inj_add. cbn [List.length].
      unfold samples_ahead in Hs. lia.
Qed.

(** X11: after processing any sequence of values from the initial state,
    whatever the outcome, the sample list has as many entries as the sum of
    the histogram's counts, or one more; it has one more only when the
    sequence contains a dict whose length does not hash. *)
Theorem samples_stay_with_counts (msgs : list json) :
  let s' := snd (for_each process_message msgs init_state) in
  (samples_ahead s' = 0 \/ samples_ahead s' = 1) /\
  (existsb unhashable_length msgs = false -> samples_ahead s' = 0).
Proof. apply for_each_samples_ahead. reflexivity. Qed.

Lemma samples_stay_with_counts_witness :
  samples_ahead
    (snd (for_each process_message
            [record_of "a"; JArr [JInt 1]; record_of "bb"] init_state)) = 0.
Proof.
  apply (proj2 (samples_stay_with_counts
                  [record_of "a"; JArr [JInt 1]; record_of "bb"])).
  reflexivity.
Defined.

(** ** Keys that are equal in Python's sense *)

Lemma dict_lookup_matching (v key : json) (d : list (json * Z)) :
  In key (map fst d) -> key_match v key = true ->
  exists n, dict_lookup v d = Some n.
Proof.
  intros Hin Hm. induction d as [|[key' w] d IH]; simpl in *; [destruct Hin|].
  destruct (key_match v key') eqn:E; [exists w; reflexivity|].
  destruct Hin as [->|Hin]; [congruence|exact (IH Hin)].
Qed.

Lemma dict_lookup_none (v : json) (d : list (json * Z)) :
  dict_lookup v d = None ->
  Forall (fun key => key_match v key = false) (map fst d).
Proof.
  induction d as [|[key w] d IH]; simpl; intros H; [constructor|].
  destruct (key_match v key) eqn:E; [discriminate|].
  constructor; [exact E|exact (IH H)].
Qed.

Lemma ForallOrdPairs_snoc {A} (R : A -> A -> Prop) (l : list A) (x : A) :
  ForallOrdPairs R l -> Forall (fun a => R a x) l ->
  ForallOrdPairs R (l ++ [x]).
Proof.
  induction 1 as [|a l Ha Hl IH]; intros Hx; simpl.
  - constructor; constructor.
  - apply Forall_cons_iff in Hx. destruct Hx as [Hax Hx].
    constructor; [|exact (IH Hx)].
    apply Forall_app. split; [exact Ha|]. constructor; [exact Hax|constructor].
Qed.

Lemma for_each_process_message_invariant (P : state -> Prop) :
  (forall m s, P s -> P (snd (process_message m s))) ->
  forall msgs s, P s -> P (snd (for_each process_message msgs s)).
Proof.
  intros Hstep msgs. induction msgs as [|m msgs IH]; intros s Hs; [exact Hs|].
  cbn [for_each]. unfold bind. pose proof (Hstep m s Hs) as H1.
  destruct (process_message m s) as [[[]|e] s1]; cbn [snd] in *.
  - exact (IH s1 H1).
  - exact H1.
Qed.

(** X12: in every state reached from the initial state by processing any
    sequence of values, no key of the histogram equals an earlier key in
    Python's sense: a length is given a new key only when no key matches
    it. *)
Theorem histogram_keys_are_distinct (msgs : list json) :
  ForallOrdPairs (fun earlier later => key_match later earlier = false)
    (map fst (length_counts (snd (for_each process_message msgs init_state)))).
Proof.
  apply (for_each_process_message_invariant
           (fun s => ForallOrdPairs
                       (fun earlier later => key_match later earlier = false)
                       (map fst (length_counts s)))).
  - intros m s Hs.
    destruct m as [| | | | | |items];
      try (rewrite process_message_not_dict by discriminate; exact Hs).
    pose proof (process_message_data items s) as [_ Hc]. cbv zeta in Hc.
    rewrite Hc.
    destruct (hashable (items_get "message_length" (JInt 0) items));
      [|exact Hs].
    rewrite dict_set_keys.
    destruct (dict_lookup _ (length_counts s)) eqn:E; [exact Hs|].
    apply ForallOrdPairs_snoc; [exact Hs|]. exact (dict_lookup_none _ _ E).
  - constructor.
Qed.

(** X13: a dict message whose length hashes and equals, in Python's sense,
    a key the histogram already has ([True] or [1.0] where the key is [1])
    adds no key: the keys stay as they are, and the bucket found under the
    length is one higher. *)
Theorem equal_length_shares_the_bucket
  (items : list (string * json)) (key : json) (s : state) :
  let v := items_get "message_length" (JInt 0) items in
  let s' := snd (process_message (JObj items) s) in
  hashable v = true ->
  In key (map fst (length_counts s)) ->
  key_match v key = true ->
  map fst (length_counts s') = map fst (length_counts s) /\
  bucket v s' = bucket v s + 1.
Proof.
  intros v s' Hh Hin Hm. subst s'.
  pose proof (process_message_data items s) as [_ Hc]. cbv zeta in Hc.
  fold v in Hc. rewrite Hh in Hc.
  destruct (dict_lookup_matching v key _ Hin Hm) as [n Hn].
  split.
  - rewrite Hc, dict_set_keys, Hn. reflexivity.
  - exact (process_message_bucket items s Hh).
Qed.

Lemma equal_length_shares_the_bucket_witness :
  let s' := snd (process_message (JObj [("message_length", JBool true)])
                   state_1_twice) in
  map fst (length_counts s') = [JInt 1] /\
  bucket (JBool true) s' = 3.
Proof.
  apply (equal_length_shares_the_bucket
           [("message_length", JBool true)] (JInt 1) state_1_twice).
  - reflexivity.
  - left. reflexivity.
  - reflexivity.
Defined.

(** ** The histogram and the lengths the messages carry *)

Lemma process_message_bucket_le (message k : json) (s : state) :
  bucket k s <= bucket k (snd (process_message message s)).
Proof.
  destruct message as [| | | | | |items];
    try (rewrite process_message_not_dict by discriminate; cbn [snd];
         unfold bucket; cbn [length_counts]; lia).
  pose proof (process_message_data items s) as [_ Hc]. cbv zeta in Hc.
  unfold bucket. rewrite Hc.
  destruct (hashable (items_get "message_length" (JInt 0) items)); [|lia].
  apply dict_set_grows.
Qed.

Lemma for_each_bucket_le (msgs : list json) (k : json) (s : state) :
  bucket k s <= bucket k (snd (for_each process_message msgs s)).
Proof.
  apply (for_each_process_message_invariant (fun s2 => bucket k s <= bucket k s2)).
  - intros m s2 H. pose proof (process_message_bucket_le m k s2). lia.
  - lia.
Qed.

(** When the run returns, every message has its length in the histogram. *)
Lemma for_each_counts_every_length (msgs : list json) (s s' : state) :
  shaped (fun _ => True) (length_counts s) ->
  for_each process_message msgs s = (Return tt, s') ->
  forall items,
    In (JObj items) msgs ->
    1 <= bucket (items_get "message_length" (JInt 0) items) s'.
Proof.
  revert s. induction msgs as [|m msgs IH]; intros s Hs H items Hin;
    [destruct Hin|].
  cbn [for_each] in H. unfold bind in H.
  pose proof (process_message_shaped (fun _ => True) m s Hs
                (fun _ _ _ => I)) as Hs1.
  destruct (process_message m s) as [[[]|e] s1] eqn:E; [|discriminate].
  cbn [snd] in Hs1.
  destruct Hin as [->|Hin]; [|exact (IH s1 Hs1 H items Hin)].
  destruct (process_message_returns _ _ _ E) as (items' & Heq & Hh).
  injection Heq as <-.
  pose proof (process_message_bucket items s Hh) as Hb.
  rewrite E in Hb. cbn [snd] in Hb.
  pose proof (shaped_bucket (fun _ => True)
                (items_get "message_length" (JInt 0) items) s Hs) as H0.
  pose proof (for_each_bucket_le msgs
                (items_get "message_length" (JInt 0) items) s1) as Hle.
  rewrite H in Hle. cbn [snd] in Hle. lia.
Qed.

(** C7, amended: in every state reached by processing any sequence of
    messages the histogram maps hashable length values that the messages
    carried to counts that are positive integers: every key is the length of
    one of the messages, it hashes, and its count is positive; when the run
    returns, the length of every message has a bucket of at least one.  When
    every message has a length field that is absent or a non-negative
    integer, the keys are non-negative integers. *)
Theorem histogram_counts_positive (msgs : list json) :
  let r := for_each process_message msgs init_state in
  let s' := snd r in
  Forall (fun kv =>
            (exists items,
                In (JObj items) msgs /\
                items_get "message_length" (JInt 0) items = fst kv) /\
            hashable (fst kv) = true /\
            0 < snd kv)
         (length_counts s') /\
  (fst r = Return tt ->
   forall items,
     In (JObj items) msgs ->
     1 <= bucket (items_get "message_length" (JInt 0) items) s') /\
  (forallb length_as_specified msgs = true ->
   histogram_as_specified (length_counts s') = true).
Proof.
  intros r s'. subst r s'. split; [|split].
  - assert (H : shaped
                 (fun k => (exists items,
                               In (JObj items) msgs /\
                               items_get "message_length" (JInt 0) items = k) /\
                           hashable k = true)
                 (length_counts (snd (for_each process_message msgs init_state)))).
    { apply for_each_process_message_shaped; [constructor|].
      intros items Hin Hv. split; [|exact Hv].
      exists items. split; [exact Hin|reflexivity]. }
    unfold shaped in H. rewrite Forall_forall in *.
    intros kv Hkv. destruct (H kv Hkv) as [[Hc Hh] Hp].
    repeat split; assumption.
  - intros Hr.
    destruct (for_each process_message msgs init_state) as [o s'] eqn:E.
    cbn [fst snd] in *. subst o.
    apply (for_each_counts_every_length msgs init_state s'); [constructor|exact E].
  - intros Hall. apply shaped_as_specified.
    apply (for_each_process_message_shaped (fun k => nonneg_int k = true)).
    + constructor.
    + intros items Hin _. rewrite forallb_forall in Hall.
      exact (Hall _ Hin).
Qed.

Lemma histogram_counts_positive_witness :
  (forall items,
      In (JObj items) records_a_bb_bb ->
      1 <= bucket (items_get "message_length" (JInt 0) items)
             (snd (for_each process_message records_a_bb_bb init_state))) /\
  histogram_as_specified
    (length_counts (snd (for_each process_message records_a_bb_bb init_state)))
  = true.
Proof.
  pose proof (histogram_counts_positive records_a_bb_bb) as H.
  cbv zeta in H. destruct H as (_ & Hall & Hspec).
  split; [exact (Hall eq_refl)|exact (Hspec eq_refl)].
Defined.

(** ** Records with integer lengths, read from the file *)

(** One line that is a dict with an integer length, read in a state whose
    keys are integers. *)
Lemma read_line_int (items : list (string * json)) (z : Z) (ks : list Z) (s : state) :
  items_find "message_length" items = Some (JInt z) ->
  map fst (length_counts s) = map JInt ks ->
  exists s',
    read_line (LineJson (JObj items)) s = (Return tt, s') /\
    length_counts s' =
      dict_set (JInt z) (bucket (JInt z) s + 1) (length_counts s).
Proof.
  intros Hfind Hks.
  assert (Hv : items_get "message_length" (JInt 0) items = JInt z)
    by (rewrite items_get_find, Hfind; reflexivity).
  set (s0 := and_then s [Log INFO (MsgReadFromFile (JObj items))]).
  destruct (update_chart_same_class Numeric (counted (JObj items) (JInt z) s0))
    as (bars & _ & Hu).
  { apply counted_has_samples. }
  { discriminate. }
  { apply counted_class; [reflexivity|].
    subst s0. cbn [and_then length_counts]. rewrite Hks.
    rewrite Forall_forall. intros k Hk. apply in_map_iff in Hk.
    destruct Hk as (x & <- & _). reflexivity. }
  eexists. split.
  - unfold read_line.
    rewrite (bind_return (json_loads (LineJson (JObj items))) _ (JObj items)
               s s eq_refl).
    unfold logger_info. rewrite bind_emit. fold s0.
    pose proof (process_message_hashable items s0) as Hp.
    rewrite Hv in Hp. rewrite (bind_return _ _ tt s0 _ (eq_trans (Hp eq_refl) Hu)).
    reflexivity.
  - reflexivity.
Qed.

(** C8: file mode on any three records whose length fields are 1, 2 and 2
    (the records of "a", "bb", "bb" among them), starting from an empty
    histogram, ends with the histogram {1: 1, 2: 2}. *)
Theorem file_a_bb_bb_histogram
  (w : env) (r1 r2 r3 : list (string * json)) (s : state) :
  DATA_FILE w =
    FileLines [LineJson (JObj r1); LineJson (JObj r2); LineJson (JObj r3)] ->
  items_find "message_length" r1 = Some (JInt 1) ->
  items_find "message_length" r2 = Some (JInt 2) ->
  items_find "message_length" r3 = Some (JInt 2) ->
  length_counts s = [] ->
  length_counts (snd (consume_from_file w s)) = [(JInt 1, 1); (JInt 2, 2)].
Proof.
  intros Hf H1 H2 H3 Hempty.
  rewrite (consume_from_file_lines w _ s Hf).
  set (s0 := and_then s [Log INFO MsgReadingMessagesFrom]).
  assert (Hd0 : length_counts s0 = []) by exact Hempty.
  destruct (read_line_int r1 1 [] s0 H1) as (s1 & E1 & Hd1);
    [rewrite Hd0; reflexivity|].
  unfold bucket in Hd1. rewrite Hd0 in Hd1. cbn in Hd1.
  destruct (read_line_int r2 2 [1] s1 H2) as (s2 & E2 & Hd2);
    [rewrite Hd1; reflexivity|].
  unfold bucket in Hd2. rewrite Hd1 in Hd2. cbn in Hd2.
  destruct (read_line_int r3 2 [1; 2] s2 H3) as (s3 & E3 & Hd3);
    [rewrite Hd2; reflexivity|].
  unfold bucket in Hd3. rewrite Hd2 in Hd3. cbn in Hd3.
  cbn [for_each].
  rewrite (bind_return _ _ _ _ _ E1), (bind_return _ _ _ _ _ E2),
    (bind_return _ _ _ _ _ E3).
  exact Hd3.
Qed.

Lemma file_a_bb_bb_histogram_witness :
  length_counts
    (snd (consume_from_file
            (file_world (FileLines (map LineJson records_a_bb_bb))) init_state)) =
  [(JInt 1, 1); (JInt 2, 2)].
Proof.
  apply (file_a_bb_bb_histogram
           (file_world (FileLines (map LineJson records_a_bb_bb)))
           [("message", JStr "a"); ("message_length", JInt 1)]
           [("message", JStr "bb"); ("message_length", JInt 2)]
           [("message", JStr "bb"); ("message_length", JInt 2)]
           init_state);
    reflexivity.
Defined.

(** ** A redraw that returns *)

Lemma insert_sorted_perm (x : json) (l r : list json) :
  insert_sorted x l = Return r -> Permutation (x :: l) r.
Proof.
  revert r. induction l as [|y l IH]; intros r H; simpl in H.
  - injection H as <-. apply Permutation_refl.
  - destruct (py_lt x y) as [[|]|e]; [| |discriminate].
    + injection H as <-. apply Permutation_refl.
    + destruct (insert_sorted x l) as [r'|e]; [|discriminate].
      injection H as <-.
      apply Permutation_trans with (y :: x :: l); [apply perm_swap|].
      apply perm_skip. apply IH. reflexivity.
Qed.

Lemma sorted_from_perm (l acc r : list json) :
  sorted_from acc l = Return r -> Permutation (acc ++ l) r.
Proof.
  revert acc. induction l as [|x l IH]; intros acc H; simpl in H.
  - injection H as <-. rewrite app_nil_r. apply Permutation_refl.
  - destruct (insert_sorted x acc) as [acc'|e] eqn:E; [|discriminate].
    apply Permutation_trans with (acc' ++ l); [|exact (IH acc' H)].
    apply Permutation_trans with ((x :: acc) ++ l).
    + apply Permutation_sym, Permutation_middle.
    + apply Permutation_app_tail. exact (insert_sorted_perm _ _ _ E).
Qed.

(** Keys that [sorted] accepts are all of one class. *)
Lemma sorted_from_one_class (l r : list json) (x y : json) :
  sorted_from [] l = Return r -> In x l -> In y l -> class_of x = class_of y.
Proof.
  intros H Hx Hy.
  destruct (key_class_eq_dec (class_of x) (class_of y)) as [E|E]; [exact E|].
  rewrite (sorted_from_mixed l x y Hx Hy E) in H. discriminate.
Qed.

(** A list comprehension that returns has read the counts and changed
    nothing. *)
Lemma counts_read (ks : list json) (cs : list Z) (s s' : state) :
  list_comprehension length_counts_getitem ks s = (Return cs, s') ->
  s' = s /\ cs = map (fun k => bucket k s) ks.
Proof.
  revert cs s'. induction ks as [|k ks IH]; intros cs s' H; simpl in H.
  - injection H as <- <-. split; reflexivity.
  - unfold bind in H. unfold length_counts_getitem at 1 in H.
    destruct (hashable k); [|discriminate].
    destruct (dict_lookup k (length_counts s)) as [n|] eqn:En; [|discriminate].
    destruct (list_comprehension length_counts_getitem ks s) as [[cs'|e] s1];
      [|discriminate].
    destruct (IH cs' s1 eq_refl) as [-> ->].
    unfold ret in H. injection H as <- <-.
    split; [reflexivity|]. cbn [map]. unfold bucket at 2. rewrite En. reflexivity.
Qed.

Lemma update_chart_returned (s s' : state) :
  message_lengths s <> [] ->
  update_chart s = (Return tt, s') ->
  exists ks,
    sorted_from [] (map fst (length_counts s)) = Return ks /\
    s' = and_then s (AxClear :: bar_chart ks (map (fun k => bucket k s) ks)).
Proof.
  intros Hne H. unfold update_chart in H. rewrite bind_emit in H.
  rewrite (bind_return get_state _ (and_then s [AxClear]) _ _ eq_refl) in H.
  cbn [message_lengths and_then length_counts] in H.
  destruct (message_lengths s) as [|m ms]; [congruence|].
  set (s0 := and_then s [AxClear]) in *.
  destruct (sorted_from [] (map fst (length_counts s))) as [ks|e] eqn:Es.
  - assert (Hsorted : sorted (map fst (length_counts s)) s0 = (Return ks, s0))
      by (unfold sorted; rewrite Es; reflexivity).
    rewrite (bind_return _ _ _ _ _ Hsorted) in H.
    destruct (list_comprehension length_counts_getitem ks s0) as [[cs|e] s1] eqn:Ec.
    + destruct (counts_read ks cs s0 s1 Ec) as [-> ->].
      rewrite (bind_return _ _ _ _ _ Ec), emit_bar_chart in H.
      injection H as <-. exists ks. split; [reflexivity|].
      subst s0. rewrite and_then_app. reflexivity.
    + rewrite (bind_raise _ _ _ _ _ Ec) in H. discriminate.
  - assert (Hsorted : sorted (map fst (length_counts s)) s0 = (Raise e, s0))
      by (unfold sorted; rewrite Es; reflexivity).
    rewrite (bind_raise _ _ _ _ _ Hsorted) in H. discriminate.
Qed.

(** X1: whenever [update_chart] returns in a state with at least one sample,
    it has cleared the axes and drawn exactly one bar per key of the
    histogram: the bar positions are a rearrangement of the keys, each height
    is the count of its key, there are as many colours as keys, and the tick
    positions are the bar positions; the containers are untouched. *)
Theorem chart_has_one_bar_per_key (s s' : state) :
  message_lengths s <> [] ->
  update_chart s = (Return tt, s') ->
  exists ks,
    Permutation (map fst (length_counts s)) ks /\
    s' =
    {| message_lengths := message_lengths s;
       length_counts := length_counts s;
       effects :=
         effects s ++
         [AxClear;
          AxBar ks (map (fun k => bucket k s) ks) (List.length ks);
          AxSetXlabel "Message Length";
          AxSetYlabel "Count";
          AxSetTitle "Counts of Messages by Message Length";
          AxSetXticks ks;
          PltDraw;
          PltPause] |}.
Proof.
  intros Hne H. destruct (update_chart_returned s s' Hne H) as (ks & Hs & ->).
  exists ks. split; [|reflexivity].
  exact (sorted_from_perm _ _ _ Hs).
Qed.

Lemma chart_has_one_bar_per_key_witness :
  exists ks,
    Permutation [JInt 5; JInt 2; JInt 9] ks /\
    snd (update_chart state_5_2_9) =
    {| message_lengths := [JInt 5; JInt 2; JInt 5; JInt 9];
       length_counts := [(JInt 5, 2); (JInt 2, 1); (JInt 9, 1)];
       effects :=
         [AxClear;
          AxBar ks (map (fun k => bucket k state_5_2_9) ks) (List.length ks);
          AxSetXlabel "Message Length";
          AxSetYlabel "Count";
          AxSetTitle "Counts of Messages by Message Length";
          AxSetXticks ks;
          PltDraw;
          PltPause] |}.
Proof.
  apply (chart_has_one_bar_per_key state_5_2_9 (snd (update_chart state_5_2_9))).
  - discriminate.
  - reflexivity.
Defined.

(** X2: whenever [update_chart] returns in a state with at least one sample
    and integer keys, the bars it has drawn are in ascending order of the
    key. *)
Theorem integer_bars_are_ascending (zs : list Z) (s s' : state) :
  message_lengths s <> [] ->
  map fst (length_counts s) = map JInt zs ->
  update_chart s = (Return tt, s') ->
  exists r,
    Permutation zs r /\
    Sorted Z.le r /\
    s' = and_then s
           (AxClear ::
            bar_chart (map JInt r) (map (fun z => bucket (JInt z) s) r)).
Proof.
  intros Hne Hkeys H.
  destruct (update_chart_returned s s' Hne H) as (ks & Hs & ->).
  destruct (sorted_from_ints zs [] (Sorted_nil _)) as (r & Hr & Hsr & Hp).
  simpl in Hr, Hp. rewrite Hkeys, Hr in Hs. injection Hs as <-.
  exists r. split; [exact Hp|]. split; [exact Hsr|].
  rewrite map_map. reflexivity.
Qed.

Lemma integer_bars_are_ascending_witness :
  exists r,
    Permutation [5; 2; 9] r /\
    Sorted Z.le r /\
    snd (update_chart state_5_2_9) =
    and_then state_5_2_9
      (AxClear ::
       bar_chart (map JInt r) (map (fun z => bucket (JInt z) state_5_2_9) r)).
Proof.
  apply (integer_bars_are_ascending [5; 2; 9] state_5_2_9
           (snd (update_chart state_5_2_9))).
  - discriminate.
  - reflexivity.
  - reflexivity.
Defined.

(** X3: a call of [process_message] that returns was given a dict whose
    length hashes; it has appended the length to the samples, counted it in
    its bucket, and redrawn the chart with one bar per key; and the keys of
    the histogram it leaves are all of one class (all numbers, or all
    strings, or a single key). *)
Theorem returning_call_has_counted_and_drawn (message : json) (s s' : state) :
  process_message message s = (Return tt, s') ->
  exists items ks,
    message = JObj items /\
    let v := items_get "message_length" (JInt 0) items in
    let s1 := counted message v s in
    hashable v = true /\
    (forall k1 k2,
        In k1 (map fst (length_counts s')) ->
        In k2 (map fst (length_counts s')) ->
        class_of k1 = class_of k2) /\
    Permutation (map fst (length_counts s1)) ks /\
    s' = and_then s1 (AxClear :: bar_chart ks (map (fun k => bucket k s1) ks)).
Proof.
  intros H. destruct (process_message_returns _ _ _ H) as (items & -> & Hh).
  rewrite (process_message_hashable items s Hh) in H.
  destruct (update_chart_returned _ _ (counted_has_samples _ _ _) H)
    as (ks & Hs & ->).
  exists items, ks. split; [reflexivity|]. cbv zeta.
  split; [exact Hh|]. split; [|split; [|reflexivity]].
  - intros k1 k2 H1 H2. exact (sorted_from_one_class _ _ _ _ Hs H1 H2).
  - exact (sorted_from_perm _ _ _ Hs).
Qed.

Lemma returning_call_has_counted_and_drawn_witness :
  exists items ks,
    record_of "bb" = JObj items /\
    let v := items_get "message_length" (JInt 0) items in
    let s1 := counted (record_of "bb") v state_5_2_9 in
    hashable v = true /\
    (forall k1 k2,
        In k1 (map fst (length_counts
                          (snd (process_message (record_of "bb") state_5_2_9)))) ->
        In k2 (map fst (length_counts
                          (snd (process_message (record_of "bb") state_5_2_9)))) ->
        class_of k1 = class_of k2) /\
    Permutation (map fst (length_counts s1)) ks /\
    snd (process_message (record_of "bb") state_5_2_9) =
    and_then s1 (AxClear :: bar_chart ks (map (fun k => bucket k s1) ks)).
Proof.
  apply (returning_call_has_counted_and_drawn (record_of "bb") state_5_2_9
           (snd (process_message (record_of "bb") state_5_2_9))).
  reflexivity.
Defined.

(** ** Tallying integer lengths *)

Lemma key_match_ints (z k : Z) : key_match (JInt z) (JInt k) = (z =? k).
Proof.
  simpl. destruct (z ?= k) eqn:E; symmetry.
  - apply Z.eqb_eq, Z.compare_eq, E.
  - apply Z.eqb_neq. intros ->. rewrite Z.compare_refl in E. discriminate.
  - apply Z.eqb_neq. intros ->. rewrite Z.compare_refl in E. discriminate.
Qed.

Lemma dict_lookup_set_ints (n z v : Z) (ks : list Z) (d : list (json * Z)) :
  map fst d = map JInt ks ->
  dict_lookup (JInt n) (dict_set (JInt z) v d) =
  if n =? z then Some v else dict_lookup (JInt n) d.
Proof.
  revert ks. induction d as [|[key w] d IH]; intros ks Hk.
  - cbn [dict_set dict_lookup]. rewrite key_match_ints. reflexivity.
  - destruct ks as [|k ks]; [discriminate|]. cbn [map fst] in Hk.
    injection Hk as -> Hk. cbn [dict_set dict_lookup].
    rewrite !key_match_ints.
    destruct (z =? k) eqn:Ezk; cbn [dict_lookup]; rewrite key_match_ints.
    + apply Z.eqb_eq in Ezk. subst k.
      destruct (n =? z); reflexivity.
    + destruct (n =? k) eqn:Enk.
      * apply Z.eqb_eq in Enk. subst k.
        destruct (n =? z) eqn:Enz; [|reflexivity].
        apply Z.eqb_eq in Enz. subst z. rewrite Z.eqb_refl in Ezk. discriminate.
      * exact (IH ks Hk).
Qed.

Lemma tallied_and_then (zs : list Z) (s : state) (es : list effect) :
  tallied zs s -> tallied zs (and_then s es).
Proof. intros H. exact H. Qed.

(** The containers after a message with the integer length [z] is counted. *)
Lemma counted_tallied (message : json) (z : Z) (zs : list Z) (s : state) :
  tallied zs s -> tallied (zs ++ [z]) (counted message (JInt z) s).
Proof.
  intros (Hml & (ks & Hks) & Hb). repeat split.
  - unfold counted. cbn [message_lengths]. rewrite Hml, map_app. reflexivity.
  - rewrite counted_keys, Hks.
    destruct (dict_lookup (JInt z) (length_counts s)).
    + exists ks. reflexivity.
    + exists (ks ++ [z]). rewrite map_app. reflexivity.
  - intros n. unfold bucket at 1, counted. cbn [length_counts].
    rewrite (dict_lookup_set_ints n z _ ks _ Hks).
    rewrite count_occ_app, Nat2Z.inj_add. cbn [count_occ].
    destruct (n =? z) eqn:E.
    + apply Z.eqb_eq in E. subst n. rewrite Hb.
      destruct (Z.eq_dec z z); [reflexivity|congruence].
    + apply Z.eqb_neq in E. fold (bucket (JInt n) s). rewrite Hb.
      destruct (Z.eq_dec z n); [congruence|]. simpl. lia.
Qed.

(** A call that returns on a message with an integer length. *)
Lemma process_message_tallied (message : json) (z : Z) (zs : list Z) (s s' : state) :
  int_length message = Some z ->
  tallied zs s ->
  process_message message s = (Return tt, s') ->
  tallied (zs ++ [z]) s'.
Proof.
  intros Hz Hs H.
  destruct message as [| | | | | |items]; try discriminate.
  simpl in Hz.
  destruct (items_get "message_length" (JInt 0) items) as [| |z'| | | |] eqn:Ev;
    try discriminate.
  injection Hz as ->.
  pose proof (process_message_hashable items s) as Hp.
  rewrite Ev in Hp. rewrite (Hp eq_refl) in H.
  destruct (keeps_update_chart _ _ _ H) as [H1 H2].
  destruct (counted_tallied (JObj items) z zs s Hs) as (Hml & Hks & Hb).
  repeat split.
  - rewrite H1. exact Hml.
  - rewrite H2. exact Hks.
  - intros n. unfold bucket. rewrite H2. exact (Hb n).
Qed.

Lemma tallied_init : tallied [] init_state.
Proof. repeat split. exists []. reflexivity. Qed.

Section Tally.

(** A loop whose body, when it returns on an element that carries the
    integer [z], has tallied [z]. *)
Variable A : Type.
Variable body : A -> M unit.
Variable carries : A -> Z -> Prop.
Hypothesis body_tallies :
  forall x z zs s s',
    carries x z -> tallied zs s -> body x s = (Return tt, s') ->
    tallied (zs ++ [z]) s'.

Lemma for_each_tallied (xs : list A) (zs : list Z) :
  Forall2 carries xs zs ->
  forall zs0 s s',
    tallied zs0 s ->
    for_each body xs s = (Return tt, s') ->
    tallied (zs0 ++ zs) s'.
Proof.
  induction 1 as [|x z xs zs Hx _ IH]; intros zs0 s s' Hs H.
  - injection H as <-. rewrite app_nil_r. exact Hs.
  - cbn [for_each] in H. unfold bind in H.
    destruct (body x s) as [[[]|e] s1] eqn:E; [|discriminate].
    pose proof (body_tallies x z zs0 s s1 Hx Hs E) as Hs1.
    pose proof (IH (zs0 ++ [z]) s1 s' Hs1 H) as Hs'.
    rewrite <- app_assoc in Hs'. exact Hs'.
Qed.

End Tally.

(** What a returning pass through the body of each loop has done. *)
Lemma read_line_returned (line : file_line) (s s1 : state) :
  read_line line s = (Return tt, s1) ->
  exists message s0,
    line = LineJson message /\
    process_message message (and_then s [Log INFO (MsgReadFromFile message)]) =
    (Return tt, s0) /\
    s1 = and_then s0 [TimeSleep 1].
Proof.
  intros H. destruct line as [message|]; [|discriminate].
  unfold read_line in H.
  rewrite (bind_return (json_loads (LineJson message)) _ message s s eq_refl) in H.
  unfold logger_info in H. rewrite bind_emit in H. unfold bind in H.
  destruct (process_message message _) as [[[]|e] s0] eqn:E; [|discriminate].
  injection H as <-. exists message, s0.
  split; [reflexivity|]. split; [exact E|reflexivity].
Qed.

Lemma receive_returned (item : kafka_item) (s s1 : state) :
  receive item s = (Return tt, s1) ->
  exists value,
    item = KafkaRecord value /\
    process_message value (and_then s [Log INFO (MsgReceivedFromKafka value)]) =
    (Return tt, s1).
Proof.
  intros H. destruct item as [value|e]; [|discriminate].
  unfold receive in H.
  rewrite (bind_return (kafka_next (KafkaRecord value)) _ value s s eq_refl) in H.
  unfold logger_info in H. rewrite bind_emit in H.
  exists value. split; [reflexivity|exact H].
Qed.

Lemma read_line_tallied (line : file_line) (z : Z) (zs : list Z) (s s' : state) :
  line_length line = Some z ->
  tallied zs s ->
  read_line line s = (Return tt, s') ->
  tallied (zs ++ [z]) s'.
Proof.
  intros Hz Hs H.
  destruct (read_line_returned line s s' H) as (message & s0 & -> & Hp & ->).
  apply tallied_and_then.
  exact (process_message_tallied message z zs _ s0 Hz
           (tallied_and_then zs s _ Hs) Hp).
Qed.

Lemma receive_tallied (item : kafka_item) (z : Z) (zs : list Z) (s s' : state) :
  item_length item = Some z ->
  tallied zs s ->
  receive item s = (Return tt, s') ->
  tallied (zs ++ [z]) s'.
Proof.
  intros Hz Hs H.
  destruct (receive_returned item s s' H) as (value & -> & Hp).
  exact (process_message_tallied value z zs _ s' Hz
           (tallied_and_then zs s _ Hs) Hp).
Qed.

(** X5: whenever processing a sequence of dict messages with integer
    lengths, from the initial state, returns, the lengths are on the sample
    list in order of arrival and, for every integer, the bucket equals the
    number of messages of that length. *)
Theorem histogram_counts_each_length (msgs : list json) (zs : list Z) (s' : state) :
  Forall2 (fun m z => int_length m = Some z) msgs zs ->
  for_each process_message msgs init_state = (Return tt, s') ->
  message_lengths s' = map JInt zs /\
  forall n, bucket (JInt n) s' = Z.of_nat (count_occ Z.eq_dec zs n).
Proof.
  intros HF H.
  destruct (for_each_tallied json process_message
              (fun m z => int_length m = Some z)
              (fun x z zs0 s s1 Hx Hs Hr =>
                 process_message_tallied x z zs0 s s1 Hx Hs Hr)
              msgs zs HF [] init_state s' tallied_init H)
    as (Hml & _ & Hb).
  split; [exact Hml|exact Hb].
Qed.

Lemma histogram_counts_each_length_witness :
  message_lengths (snd (for_each process_message records_a_bb_bb init_state)) =
  map JInt [1; 2; 2] /\
  forall n,
    bucket (JInt n) (snd (for_each process_message records_a_bb_bb init_state)) =
    Z.of_nat (count_occ Z.eq_dec [1; 2; 2] n).
Proof.
  apply (histogram_counts_each_length records_a_bb_bb [1; 2; 2]
           (snd (for_each process_message records_a_bb_bb init_state))).
  - repeat constructor.
  - reflexivity.
Defined.

Lemma process_message_sample (message : json) (s s' : state) :
  process_message message s = (Return tt, s') ->
  List.length (message_lengths s') = S (List.length (message_lengths s)).
Proof.
  intros H. destruct (process_message_returns _ _ _ H) as (items & -> & _).
  pose proof (process_message_data items s) as [Hl _]. cbv zeta in Hl.
  rewrite H in Hl. cbn [snd] in Hl. rewrite Hl, length_app. cbn [List.length].
  lia.
Qed.

Lemma for_each_read_line_counts (lines : list file_line) (s s' : state) :
  for_each read_line lines s = (Return tt, s') ->
  List.length (message_lengths s') =
    (List.length (message_lengths s) + List.length lines)%nat /\
  sum_counts (length_counts s') =
    sum_counts (length_counts s) + Z.of_nat (List.length lines).
Proof.
  revert s. induction lines as [|line lines IH]; intros s H.
  - injection H as <-. cbn [List.length]. split; lia.
  - cbn [for_each] in H. unfold bind in H.
    destruct (read_line line s) as [[[]|e] s1] eqn:E; [|discriminate].
    destruct (read_line_returned line s s1 E) as (message & s0 & _ & Hp & ->).
    pose proof (process_message_sample _ _ _ Hp) as Hl.
    pose proof (process_message_sum _ _ _ Hp) as Hc.
    destruct (IH _ H) as [IHl IHc].
    cbn [and_then message_lengths length_counts] in *.
    cbn [List.length]. split; lia.
Qed.

(** X6: a run without the client library that logs nothing at level ERROR
    has read every line of the data file: the sample list has one entry per
    line and the counts of the histogram sum to the number of lines; when
    the lines are dicts with integer lengths, the samples are those lengths
    in file order and every bucket is the number of lines of that length. *)
Theorem error_free_file_run_has_read_every_line
  (w : env) (lines : list file_line) :
  KAFKA_AVAILABLE w = false ->
  DATA_FILE w = FileLines lines ->
  let s' := snd (main w init_state) in
  Forall (fun e => is_error e = false) (effects s') ->
  List.length (message_lengths s') = List.length lines /\
  sum_counts (length_counts s') = Z.of_nat (List.length lines) /\
  forall zs,
    Forall2 (fun line z => line_length line = Some z) lines zs ->
    message_lengths s' = map JInt zs /\
    forall n, bucket (JInt n) s' = Z.of_nat (count_occ Z.eq_dec zs n).
Proof.
  intros Ha Hf s' Hne. subst s'.
  rewrite (main_unavailable w init_state Ha) in *.
  rewrite (consume_from_file_lines w lines _ Hf) in *.
  rewrite and_then_app in *. cbn [app] in *.
  set (s0 := and_then init_state
               [Log INFO MsgStartConsumer; Log WARNING MsgKafkaNotAvailable;
                Log INFO MsgReadingMessagesFrom]) in *.
  destruct (for_each read_line lines s0) as [[[]|e] s1] eqn:E.
  - cbn [snd] in *.
    destruct (for_each_read_line_counts lines s0 s1 E) as [Hl Hc].
    split; [exact Hl|]. split; [exact Hc|].
    intros zs HF.
    destruct (for_each_tallied file_line read_line
                (fun line z => line_length line = Some z)
                read_line_tallied lines zs HF [] s0 s1 tallied_init E)
      as (Hml & _ & Hb).
    split; [exact Hml|exact Hb].
  - exfalso. cbn [snd and_then effects] in Hne.
    apply Forall_app in Hne. destruct Hne as [Hne _].
    apply Forall_app in Hne. destruct Hne as [_ Hne].
    inversion Hne as [|x l Hx _]. discriminate.
Qed.

Lemma error_free_file_run_has_read_every_line_witness :
  let s' := snd (main (file_world (FileLines (map LineJson records_a_bb_bb)))
                   init_state) in
  List.length (message_lengths s') = 3%nat /\
  sum_counts (length_counts s') = 3.
Proof.
  pose proof (error_free_file_run_has_read_every_line
                (file_world (FileLines (map LineJson records_a_bb_bb)))
                (map LineJson records_a_bb_bb) eq_refl eq_refl) as H.
  cbv zeta in H.
  assert (Hne : Forall (fun e => is_error e = false)
                  (effects (snd (main (file_world
                                         (FileLines (map LineJson records_a_bb_bb)))
                                   init_state))))
    by (vm_compute; repeat constructor).
  destruct (H Hne) as (Hl & Hc & _). split; [exact Hl|exact Hc].
Defined.

(** X7: whenever the body of the loop over the consumer has handled, without
    an exception and starting with empty containers, a run of delivered
    records that are dicts with integer lengths, the state it has reached
    has those lengths as its samples, in order of delivery, and every bucket
    equal to the number of records of that length. *)
Theorem delivered_records_are_tallied
  (stream : list kafka_item) (zs : list Z) (s s' : state) :
  message_lengths s = [] ->
  length_counts s = [] ->
  Forall2 (fun item z => item_length item = Some z) stream zs ->
  for_each receive stream s = (Return tt, s') ->
  message_lengths s' = map JInt zs /\
  forall n, bucket (JInt n) s' = Z.of_nat (count_occ Z.eq_dec zs n).
Proof.
  intros Hml Hlc HF H.
  assert (Hs : tallied [] s).
  { repeat split.
    - exact Hml.
    - exists []. rewrite Hlc. reflexivity.
    - intros n. unfold bucket. rewrite Hlc. reflexivity. }
  destruct (for_each_tallied kafka_item receive
              (fun item z => item_length item = Some z)
              receive_tallied stream zs HF [] s s' Hs H)
    as (Hm & _ & Hb).
  split; [exact Hm|exact Hb].
Qed.

Lemma delivered_records_are_tallied_witness :
  let s' := snd (for_each receive (map KafkaRecord records_a_bb_bb) init_state) in
  message_lengths s' = map JInt [1; 2; 2] /\
  forall n, bucket (JInt n) s' = Z.of_nat (count_occ Z.eq_dec [1; 2; 2] n).
Proof.
  apply (delivered_records_are_tallied
           (map KafkaRecord records_a_bb_bb) [1; 2; 2] init_state
           (snd (for_each receive (map KafkaRecord records_a_bb_bb) init_state))).
  - reflexivity.
  - reflexivity.
  - repeat constructor.
  - reflexivity.
Defined.
